(** * MC_backend: escrow ledger and trade lifecycle

    A shallow embedding of the request handlers of the wallet backend
    (the Express router of the server file and the table layout of
    [src/db.js]) together with the properties of the offer book, the
    trade engine, the holding manager and the dispute arbiter.

    Conventions of the embedding.
    - A PostgreSQL table is a list of rows in insertion order.  [SELECT ..
      WHERE p] followed by [.get()] is the first row that satisfies [p],
      [UPDATE .. WHERE p] rewrites every row that satisfies [p], [INSERT]
      appends a row whose [id] is drawn from the table's sequence.
    - A JavaScript number is an exact rational ([Q]): the rounding of
      doubles is not modelled.
    - A [NUMERIC(20,8)] column keeps 8 decimals: a value written to
      [offers], to [trades.amount] or to the fee columns of [trades] is
      rounded, ties away from zero, and a row of [offers] is refused when
      a rounded value does not fit ([Numeric]).  A [NUMERIC(30,18)] column
      holds an amount exactly (amounts finer than 18 decimals are not
      modelled); the handlers that take an amount of any size from the
      request ([POST /offers], the bulk funding and
      [POST /internal/add-balance]) are refused a balance beyond its 12
      integer digits; the other handlers move amounts that are stored
      already, and a balance is taken to stay within these digits there.
    - A text is the UTF-8 encoding of the JavaScript string, one [ascii]
      for each byte; a [VARCHAR(n)] column holds [n] characters ([Text]).
    - A timestamp is a number of milliseconds since the epoch ([Z]); the
      server's local time zone is UTC.
    - A statement that PostgreSQL refuses raises: the handler leaves
      through its [catch] branch and answers 500.  The statements of a
      handler run one by one on the pool, so whatever was written before
      the refusal stays written.
    - [status], [type] and [asset_symbol] are the strings the code compares. *)

From Stdlib Require Import List String Ascii Bool ZArith QArith Qabs Lia Lqa.
Import ListNotations.

Local Open Scope string_scope.
Local Open Scope Z_scope.
Local Open Scope Q_scope.

(** ** JavaScript helpers *)

Module Js.

(** [x < y] on numbers. *)
Definition ltb (x y : Q) : bool := negb (Qle_bool y x).

(** [x <= y] on numbers. *)
Definition leb (x y : Q) : bool := Qle_bool x y.

(** Truthiness of a string: only the empty string is falsy.  An absent
    field ([undefined]) is represented by the empty string, which every
    guard of the handlers treats alike. *)
Definition truthy_str (s : string) : bool := negb (s =? "")%string.

(** Truthiness of a number: [0] is falsy. *)
Definition truthy_num (q : Q) : bool := negb (Qeq_bool q 0).

(** The upper case of an ASCII character. *)
Definition upper_ascii (c : ascii) : ascii :=
  let n := nat_of_ascii c in
  if (97 <=? n)%nat && (n <=? 122)%nat then ascii_of_nat (n - 32) else c.

(** The two bytes of U+017F (long s), whose upper case is [S]. *)
Definition is_long_s (c1 c2 : ascii) : bool :=
  (N_of_ascii c1 =? 197)%N && (N_of_ascii c2 =? 191)%N.

(** [String.prototype.toUpperCase]: the letters a to z are raised and
    U+017F becomes [S].  Every other character is kept.  Where
    JavaScript changes such a character, the result has a character
    outside ASCII, a letter that is not in BUY, SELL or M, or two S in a
    row (U+00DF), so it is equal to BUY or SELL, or is digits and then M,
    in neither; the handlers store an upper-cased text only after such a
    test has passed. *)
Fixpoint toUpperCase (s : string) : string :=
  match s with
  | EmptyString => EmptyString
  | String c r =>
      match r with
      | String c2 r2 =>
          if is_long_s c c2 then String "S" (toUpperCase r2)
          else String (upper_ascii c) (toUpperCase r)
      | EmptyString => String (upper_ascii c) EmptyString
      end
  end.

(** White space and line terminators of one byte: tab, line feed,
    vertical tab, form feed, carriage return and space. *)
Definition is_space (c : ascii) : bool :=
  let n := nat_of_ascii c in
  ((9 <=? n)%nat && (n <=? 13)%nat) || (n =? 32)%nat.

(** U+00A0 (no-break space). *)
Definition is_space2 (c1 c2 : ascii) : bool :=
  (N_of_ascii c1 =? 194)%N && (N_of_ascii c2 =? 160)%N.

(** U+1680, U+2000 to U+200A, U+2028, U+2029, U+202F, U+205F, U+3000 and
    U+FEFF: the other characters of category Zs, the line and paragraph
    separators and the byte order mark. *)
Definition is_space3 (c1 c2 c3 : ascii) : bool :=
  let a := N_of_ascii c1 in
  let b := N_of_ascii c2 in
  let c := N_of_ascii c3 in
  ((a =? 225) && (b =? 154) && (c =? 128)
   || (a =? 226) && (b =? 128)
      && ((128 <=? c) && (c <=? 138) || (c =? 168) || (c =? 169) || (c =? 175))
   || (a =? 226) && (b =? 129) && (c =? 159)
   || (a =? 227) && (b =? 128) && (c =? 128)
   || (a =? 239) && (b =? 187) && (c =? 191))%N.

(** [String.prototype.trimStart]. *)
Fixpoint trimStart (s : string) : string :=
  match s with
  | EmptyString => EmptyString
  | String c r =>
      if is_space c then trimStart r
      else
        match r with
        | String c2 r2 =>
            if is_space2 c c2 then trimStart r2
            else
              match r2 with
              | String c3 r3 =>
                  if is_space3 c c2 c3 then trimStart r3 else s
              | EmptyString => s
              end
        | EmptyString => s
        end
  end.

(** [String.prototype.trimEnd]: the text is cut where what follows is
    white space only. *)
Fixpoint trimEnd (s : string) : string :=
  match s with
  | EmptyString => EmptyString
  | String c r =>
      if (trimStart s =? "")%string then EmptyString
      else String c (trimEnd r)
  end.

(** [String.prototype.trim]. *)
Definition trim (s : string) : string := trimEnd (trimStart s).

(** Value of a decimal digit, [None] for any other character. *)
Definition digit (c : ascii) : option N :=
  let n := N_of_ascii c in
  if (48 <=? n)%N && (n <=? 57)%N then Some (n - 48)%N else None.

End Js.

(** ** Column types *)

Module Numeric.

(** The value a [NUMERIC(p, s)] column keeps of [q]: [q] itself when it
    has at most [s] decimals, else the nearest multiple of [10^-s], a tie
    going away from zero. *)
Definition round (s : Z) (q : Q) : Q :=
  let m := (10 ^ s)%Z in
  let n := (Qnum q * m)%Z in
  let d := Zpos (Qden q) in
  if (n mod d =? 0)%Z then q
  else
    let k := (Z.abs n / d)%Z in
    let r := if (2 * (Z.abs n mod d) <? d)%Z then k else (k + 1)%Z in
    (Z.sgn n * r)%Z # Z.to_pos m.

(** The rounded value has at most [p - s] integer digits; PostgreSQL
    raises "numeric field overflow" otherwise. *)
Definition fits (p s : Z) (q : Q) : bool :=
  Js.ltb (Qabs (round s q)) (inject_Z (10 ^ (p - s))).

(** A column that may be [NULL]. *)
Definition fits_null (p s : Z) (q : option Q) : bool :=
  match q with
  | None => true
  | Some x => fits p s x
  end.

End Numeric.

Module Text.

(** A byte that continues a character of several bytes. *)
Definition continuation (c : ascii) : bool :=
  let n := N_of_ascii c in ((128 <=? n) && (n <? 192))%N.

(** The first [n] characters of a text, and the rest. *)
Fixpoint split_chars (n : nat) (s : string) : string * string :=
  match s with
  | EmptyString => (EmptyString, EmptyString)
  | String c r =>
      if continuation c
      then let '(kept, rest) := split_chars n r in (String c kept, rest)
      else
        match n with
        | O => (EmptyString, s)
        | S m => let '(kept, rest) := split_chars m r in (String c kept, rest)
        end
  end.

Fixpoint blank (s : string) : bool :=
  match s with
  | EmptyString => true
  | String c r => (c =? " ")%char && blank r
  end.

(** What a [VARCHAR(n)] column stores: the text when it has at most [n]
    characters, its first [n] characters when the others are spaces, and
    [None] when PostgreSQL raises "value too long". *)
Definition varchar (n : nat) (s : string) : option string :=
  let '(kept, rest) := split_chars n s in
  if (rest =? "")%string then Some s
  else if blank rest then Some kept
  else None.

Definition fits (n : nat) (s : string) : bool :=
  match varchar n s with Some _ => true | None => false end.

Definition stored (n : nat) (s : string) : string :=
  match varchar n s with Some kept => kept | None => s end.

End Text.

(** ** Tables *)

Module Sql.
Section Table.
Context {R : Type}.

(** [SELECT * FROM t WHERE p] then [.get()]: [rows[0] || null]. *)
Definition get (p : R -> bool) (t : list R) : option R := find p t.

(** [UPDATE t SET .. WHERE p]. *)
Definition update (p : R -> bool) (f : R -> R) (t : list R) : list R :=
  map (fun r => if p r then f r else r) t.

(** [INSERT INTO t VALUES ..]. *)
Definition insert (r : R) (t : list R) : list R := t ++ [r].

(** [COALESCE(SUM(col), 0)] over the rows selected by [p]. *)
Definition sum (col : R -> Q) (p : R -> bool) (t : list R) : Q :=
  fold_right Qplus 0 (map col (filter p t)).

End Table.
End Sql.

(** ** Rows of [src/db.js] *)

Definition Id := Z.
Definition Timestamp := Z.

Record UserRow := mkUser {
  user_id : Id;
  fda_user_id : option string;
  email : option string;
  phone : option string
}.

Record OfferRow := mkOffer {
  offer_id : Id;
  maker_id : Id;
  offer_type : string;
  offer_asset_symbol : string;
  offer_fiat_currency : string;
  offer_price : Q;
  offer_amount : Q;
  remaining : Q;
  min_limit : option Q;
  max_limit : option Q;
  payment_methods : option string;
  offer_status : string;
  offer_created_at : Timestamp;
  offer_cancelled_at : option Timestamp
}.

Record TradeRow := mkTrade {
  trade_id : Id;
  trade_offer_id : Id;
  buyer_id : Id;
  seller_id : Id;
  trade_amount : Q;
  trade_price : Q;
  trade_asset_symbol : string;
  trade_fiat_currency : string;
  trade_status : string;
  paid_at : option Timestamp;
  released_at : option Timestamp;
  trade_cancelled_at : option Timestamp;
  payment_screenshot : option string;
  fee_amount : option Q;
  fee_rate : option Q;
  trade_created_at : Timestamp
}.

Record DisputeRow := mkDispute {
  dispute_id : Id;
  dispute_trade_id : Id;
  raised_by_id : Id;
  dispute_status : string;
  reason : string;
  resolution_note : option string;
  resolved_by_id : option Id;
  dispute_created_at : Timestamp;
  resolved_at : option Timestamp
}.

Record BalanceRow := mkBalance {
  balance_user_id : Id;
  fda_balance : Q;
  balance_updated_at : Timestamp
}.

(** [settings.value] is text read back with [parseFloat]; the row holds the
    number it parses to. *)
Record SettingRow := mkSetting {
  key : string;
  value : Q
}.

(** The [note] of a transfer is a formatted text; the model keeps the
    values that are formatted into it. *)
Inductive TransferNote :=
| NoteTrade (tradeId : Id) (amount fee : Q)
| NoteDisputeRelease (tradeId : Id) (amount fee : Q).

Record TransferRow := mkTransfer {
  from_user_id : Id;
  to_user_id : Id;
  transfer_amount : Q;
  note : TransferNote
}.

Record HoldingRow := mkHolding {
  holding_id : Id;
  holding_user_id : Id;
  holding_amount : Q;
  holding_period : string;
  expires_at : Timestamp;
  holding_created_at : Timestamp
}.

(** The database: the tables and the [SERIAL] sequences whose values the
    handlers read back ([lastInsertRowid]). *)
Record Db := mkDb {
  users : list UserRow;
  offers : list OfferRow;
  trades : list TradeRow;
  disputes : list DisputeRow;
  internal_balances : list BalanceRow;
  settings : list SettingRow;
  internal_transfers : list TransferRow;
  fda_holdings : list HoldingRow;
  offers_seq : Id;
  trades_seq : Id;
  disputes_seq : Id;
  fda_holdings_seq : Id
}.

Definition set_offers (f : list OfferRow -> list OfferRow) (d : Db) : Db :=
  mkDb (users d) (f (offers d)) (trades d) (disputes d) (internal_balances d)
       (settings d) (internal_transfers d) (fda_holdings d)
       (offers_seq d) (trades_seq d) (disputes_seq d) (fda_holdings_seq d).

Definition set_trades (f : list TradeRow -> list TradeRow) (d : Db) : Db :=
  mkDb (users d) (offers d) (f (trades d)) (disputes d) (internal_balances d)
       (settings d) (internal_transfers d) (fda_holdings d)
       (offers_seq d) (trades_seq d) (disputes_seq d) (fda_holdings_seq d).

Definition set_disputes (f : list DisputeRow -> list DisputeRow) (d : Db) : Db :=
  mkDb (users d) (offers d) (trades d) (f (disputes d)) (internal_balances d)
       (settings d) (internal_transfers d) (fda_holdings d)
       (offers_seq d) (trades_seq d) (disputes_seq d) (fda_holdings_seq d).

Definition set_internal_balances
  (f : list BalanceRow -> list BalanceRow) (d : Db) : Db :=
  mkDb (users d) (offers d) (trades d) (disputes d) (f (internal_balances d))
       (settings d) (internal_transfers d) (fda_holdings d)
       (offers_seq d) (trades_seq d) (disputes_seq d) (fda_holdings_seq d).

Definition set_internal_transfers
  (f : list TransferRow -> list TransferRow) (d : Db) : Db :=
  mkDb (users d) (offers d) (trades d) (disputes d) (internal_balances d)
       (settings d) (f (internal_transfers d)) (fda_holdings d)
       (offers_seq d) (trades_seq d) (disputes_seq d) (fda_holdings_seq d).

Definition set_fda_holdings
  (f : list HoldingRow -> list HoldingRow) (d : Db) : Db :=
  mkDb (users d) (offers d) (trades d) (disputes d) (internal_balances d)
       (settings d) (internal_transfers d) (f (fda_holdings d))
       (offers_seq d) (trades_seq d) (disputes_seq d) (fda_holdings_seq d).

Definition next_offers_seq (d : Db) : Db :=
  mkDb (users d) (offers d) (trades d) (disputes d) (internal_balances d)
       (settings d) (internal_transfers d) (fda_holdings d)
       (offers_seq d + 1)%Z (trades_seq d) (disputes_seq d) (fda_holdings_seq d).

Definition next_trades_seq (d : Db) : Db :=
  mkDb (users d) (offers d) (trades d) (disputes d) (internal_balances d)
       (settings d) (internal_transfers d) (fda_holdings d)
       (offers_seq d) (trades_seq d + 1)%Z (disputes_seq d) (fda_holdings_seq d).

Definition next_disputes_seq (d : Db) : Db :=
  mkDb (users d) (offers d) (trades d) (disputes d) (internal_balances d)
       (settings d) (internal_transfers d) (fda_holdings d)
       (offers_seq d) (trades_seq d) (disputes_seq d + 1)%Z (fda_holdings_seq d).

Definition next_fda_holdings_seq (d : Db) : Db :=
  mkDb (users d) (offers d) (trades d) (disputes d) (internal_balances d)
       (settings d) (internal_transfers d) (fda_holdings d)
       (offers_seq d) (trades_seq d) (disputes_seq d) (fda_holdings_seq d + 1)%Z.

(** ** Statements shared by the handlers *)

(** [SELECT fda_balance FROM internal_balances WHERE user_id = ?]. *)
Definition select_balance (u : Id) (d : Db) : option BalanceRow :=
  Sql.get (fun r => (balance_user_id r =? u)%Z) (internal_balances d).

(** [INSERT INTO internal_balances (user_id, fda_balance, updated_at)]. *)
Definition insert_balance (u : Id) (b : Q) (now : Timestamp) (d : Db) : Db :=
  set_internal_balances (Sql.insert (mkBalance u b now)) d.

(** [UPDATE internal_balances SET fda_balance = fda_balance + ?,
    updated_at = ? WHERE user_id = ?]. *)
Definition credit_balance (u : Id) (x : Q) (now : Timestamp) (d : Db) : Db :=
  set_internal_balances
    (Sql.update (fun r => (balance_user_id r =? u)%Z)
       (fun r => mkBalance (balance_user_id r) (fda_balance r + x) now)) d.

(** [UPDATE internal_balances SET fda_balance = fda_balance - ?,
    updated_at = ? WHERE user_id = ?]. *)
Definition debit_balance (u : Id) (x : Q) (now : Timestamp) (d : Db) : Db :=
  set_internal_balances
    (Sql.update (fun r => (balance_user_id r =? u)%Z)
       (fun r => mkBalance (balance_user_id r) (fda_balance r - x) now)) d.

(** The two statements above and the insert as PostgreSQL runs them on
    the row of the user ([user_id] is UNIQUE): [None] when the balance to
    be written has more than the 12 integer digits of [NUMERIC(30,18)]. *)
Definition insert_balance_stored (u : Id) (b : Q) (now : Timestamp) (d : Db)
  : option Db :=
  if Numeric.fits 30 18 b then Some (insert_balance u b now d) else None.

Definition credit_balance_stored (u : Id) (x : Q) (now : Timestamp) (d : Db)
  : option Db :=
  match select_balance u d with
  | Some r =>
      if Numeric.fits 30 18 (fda_balance r + x)
      then Some (credit_balance u x now d) else None
  | None => Some d
  end.

Definition debit_balance_stored (u : Id) (x : Q) (now : Timestamp) (d : Db)
  : option Db :=
  match select_balance u d with
  | Some r =>
      if Numeric.fits 30 18 (fda_balance r - x)
      then Some (debit_balance u x now d) else None
  | None => Some d
  end.

(** A deposit: the balance row is created with the amount when the user
    has none, and raised by the amount otherwise. *)
Definition deposit (u : Id) (x : Q) (now : Timestamp) (d : Db) : option Db :=
  match select_balance u d with
  | None => insert_balance_stored u x now d
  | Some _ => credit_balance_stored u x now d
  end.

(** [SELECT value FROM settings WHERE key = ?]. *)
Definition select_setting (k : string) (d : Db) : option SettingRow :=
  Sql.get (fun r => (key r =? k)%string) (settings d).

(** [SELECT COALESCE(SUM(remaining), 0) FROM offers WHERE maker_id = ? AND
    type = 'SELL' AND status = 'OPEN' AND asset_symbol = 'FDA']. *)
Definition locked_in_open_sell_offers (u : Id) (d : Db) : Q :=
  Sql.sum remaining
    (fun o => (maker_id o =? u)%Z && (offer_type o =? "SELL")%string
              && (offer_status o =? "OPEN")%string
              && (offer_asset_symbol o =? "FDA")%string)
    (offers d).

(** [SELECT COALESCE(SUM(amount), 0) FROM fda_holdings WHERE user_id = ? AND
    expires_at > CURRENT_TIMESTAMP]. *)
Definition holding_locked (now : Timestamp) (u : Id) (d : Db) : Q :=
  Sql.sum holding_amount
    (fun h => (holding_user_id h =? u)%Z && (now <? expires_at h)%Z)
    (fda_holdings d).

(** The ledger balance of a user as the specification reads it: the
    balance of the user's row, [0] while the row is still to be created. *)
Definition balance_of (u : Id) (d : Db) : Q :=
  match select_balance u d with
  | Some r => fda_balance r
  | None => 0
  end.

(** [holdingSetting ? parseFloat(holdingSetting.value) : 0]. *)
Definition holding_floor (d : Db) : Q :=
  match select_setting "holding_fda_amount" d with
  | Some s => value s
  | None => 0
  end.

(** [usableBalance = available - holdingAmount - holdingLocked] with
    [available = balance - locked]. *)
Definition usable_balance (now : Timestamp) (u : Id) (d : Db) : Q :=
  balance_of u d - locked_in_open_sell_offers u d - holding_floor d
  - holding_locked now u d.

(** ** Responses *)

(** One constructor for each error message the handlers answer with. *)
Inductive Error :=
| MissingOfferFields
| InvalidOfferType
| InsufficientFdaBalance
| MinimumHoldingBalance
| OfferIdAndAmountRequired
| AmountMustBePositive
| OfferNotAvailable
| NotEnoughRemaining
| TradeNotFound
| OnlyBuyerCanMarkPaid
| OnlySellerCanRelease
| NotPaidPendingRelease
| OnlyBuyerOrSellerCanCancel
| CannotCancelTrade
| OfferNotFound
| OnlyCreatorCanCancel
| CannotCancelOffer
| ReasonRequired
| OnlyBuyerOrSellerCanDispute
| ScreenshotNotUploaded
| DisputeWindowExpired
| DisputeAlreadyExists
| UserIdRequired
| FdaAmountRequired
| FdaAmountNotNumber
| FdaAmountNotPositive
| InvalidHoldingPeriodFormat
| InvalidHoldingPeriodMonths
| InvalidTimeValue
| UserNotFoundInWallet
| ValidStatusRequired
| DisputeNotFound
| DisputeAlreadyClosed
| FailedToCreateOffer
| FailedToProcessTransfer.

(** What [res.json] is given on success: the row read back after the
    statement ([null] when the read finds none). *)
Inductive Body :=
| BodyOffer (o : option OfferRow)
| BodyTrade (t : option TradeRow)
| BodyDispute (d : option DisputeRow)
| BodyResolved (d : option DisputeRow)
| BodyTransfer (localUserId : Id) (amount oldBalance newBalance : Q)
               (expiresAt : option Timestamp) (holdingId : option Id).

Inductive Response :=
| Json (b : Body)
| Status (code : Z) (e : Error).

Definition Handler := Db -> Db * Response.

(** ** Offer book *)

Record OfferRequest := mkOfferRequest {
  rq_type : string;
  rq_assetSymbol : string;
  rq_fiatCurrency : string;
  rq_price : Q;
  rq_amount : Q;
  rq_minLimit : option Q;
  rq_maxLimit : option Q;
  rq_paymentMethods : option string
}.

(** [String(type).toUpperCase().trim()]. *)
Definition normalizedType (rq : OfferRequest) : string :=
  Js.trim (Js.toUpperCase (rq_type rq)).

(** The balance row of the requester, created with balance [0] when the
    requester has none: the result is the database after the optional
    insert and the balance the handler goes on with. *)
Definition balance_row_or_create (now : Timestamp) (u : Id) (d : Db) : Db * Q :=
  match select_balance u d with
  | Some r => (d, fda_balance r)
  | None => (insert_balance u 0 now d, 0)
  end.

(** The values of the request fit the columns of [offers]:
    [asset_symbol] and [fiat_currency] are [VARCHAR(50)], [price],
    [amount], [remaining], [min_limit] and [max_limit] are
    [NUMERIC(20,8)]. *)
Definition offer_fits (rq : OfferRequest) : bool :=
  Text.fits 50 (rq_assetSymbol rq) && Text.fits 50 (rq_fiatCurrency rq)
  && Numeric.fits 20 8 (rq_price rq) && Numeric.fits 20 8 (rq_amount rq)
  && Numeric.fits_null 20 8 (rq_minLimit rq)
  && Numeric.fits_null 20 8 (rq_maxLimit rq).

(** The row that [INSERT INTO offers (maker_id, type, asset_symbol,
    fiat_currency, price, amount, remaining, min_limit, max_limit,
    payment_methods)] stores for the request, [None] when PostgreSQL
    refuses one of the values.  [payment_methods] is [TEXT], [status]
    and [created_at] take their column defaults; [type] is BUY or SELL
    by then. *)
Definition offer_row (now : Timestamp) (u : Id) (ty : string)
  (rq : OfferRequest) (id : Id) : option OfferRow :=
  if offer_fits rq
  then Some (mkOffer id u ty (Text.stored 50 (rq_assetSymbol rq))
               (Text.stored 50 (rq_fiatCurrency rq))
               (Numeric.round 8 (rq_price rq))
               (Numeric.round 8 (rq_amount rq))
               (Numeric.round 8 (rq_amount rq))
               (option_map (Numeric.round 8) (rq_minLimit rq))
               (option_map (Numeric.round 8) (rq_maxLimit rq))
               (rq_paymentMethods rq) "OPEN" now None)
  else None.

(** The insert and [lastInsertRowid].  The identifier is drawn from the
    sequence before the values are checked against their columns, and a
    sequence is not set back: a refused insert uses up an identifier. *)
Definition insert_offer (now : Timestamp) (u : Id) (ty : string)
  (rq : OfferRequest) (d : Db) : Db * option Id :=
  let id := offers_seq d in
  match offer_row now u ty rq id with
  | Some row => (next_offers_seq (set_offers (Sql.insert row) d), Some id)
  | None => (next_offers_seq d, None)
  end.

Definition select_offer (id : Id) (d : Db) : option OfferRow :=
  Sql.get (fun o => (offer_id o =? id)%Z) (offers d).

(** The end of [POST /offers]: the insert, and the answer with the row
    read back, or 500 from the [catch] branch. *)
Definition insert_and_answer (now : Timestamp) (user : Id) (ty : string)
  (rq : OfferRequest) (d1 : Db) : Db * Response :=
  match insert_offer now user ty rq d1 with
  | (d2, Some id) => (d2, Json (BodyOffer (select_offer id d2)))
  | (d2, None) => (d2, Status 500 FailedToCreateOffer)
  end.

(** [POST /offers] (createOffer). *)
Definition post_offers (now : Timestamp) (user : Id) (rq : OfferRequest)
  : Handler := fun d =>
  if negb (Js.truthy_str (rq_type rq))
     || negb (Js.truthy_str (rq_assetSymbol rq))
     || negb (Js.truthy_str (rq_fiatCurrency rq))
     || negb (Js.truthy_num (rq_price rq))
     || negb (Js.truthy_num (rq_amount rq))
  then (d, Status 400 MissingOfferFields)
  else
    let ty := normalizedType rq in
    if negb (ty =? "BUY")%string && negb (ty =? "SELL")%string
    then (d, Status 400 InvalidOfferType)
    else
      if (ty =? "BUY")%string then insert_and_answer now user ty rq d
      else if (ty =? "SELL")%string && (rq_assetSymbol rq =? "FDA")%string then
        let '(d1, balance) := balance_row_or_create now user d in
        let locked := locked_in_open_sell_offers user d1 in
        let holdingLocked := holding_locked now user d1 in
        let available := balance - locked in
        let holdingAmount := holding_floor d1 in
        let amountNum := rq_amount rq in
        let usableBalance := available - holdingAmount - holdingLocked in
        if Js.ltb balance amountNum
        then (d1, Status 400 InsufficientFdaBalance)
        else if Js.ltb usableBalance amountNum
        then (d1, Status 400 MinimumHoldingBalance)
        else
          match debit_balance_stored user amountNum now d1 with
          | Some d2 => insert_and_answer now user ty rq d2
          | None => (d1, Status 500 FailedToCreateOffer)
          end
      else insert_and_answer now user ty rq d.

(** [POST /offers/:id/cancel] (cancelOffer). *)
Definition post_offers_cancel (now : Timestamp) (user : Id) (id : Id)
  : Handler := fun d =>
  match select_offer id d with
  | None => (d, Status 404 OfferNotFound)
  | Some offer =>
      if negb (maker_id offer =? user)%Z
      then (d, Status 403 OnlyCreatorCanCancel)
      else if negb (offer_status offer =? "OPEN")%string
      then (d, Status 400 CannotCancelOffer)
      else
        let d1 :=
          if (offer_type offer =? "SELL")%string
             && (offer_asset_symbol offer =? "FDA")%string
          then
            match select_balance user d with
            | None => insert_balance user (remaining offer) now d
            | Some _ => credit_balance user (remaining offer) now d
            end
          else d in
        let d2 :=
          set_offers
            (Sql.update (fun o => (offer_id o =? id)%Z)
               (fun o => mkOffer (offer_id o) (maker_id o) (offer_type o)
                           (offer_asset_symbol o) (offer_fiat_currency o)
                           (offer_price o) (offer_amount o) (remaining o)
                           (min_limit o) (max_limit o) (payment_methods o)
                           "CANCELLED" (offer_created_at o) (Some now)))
            d1 in
        (d2, Json (BodyOffer (select_offer id d2)))
  end.

(** The database once the funds of a SELL offer are set aside. *)
Definition db_locked (now : Timestamp) (user : Id) (rq : OfferRequest)
  (d : Db) : Db :=
  debit_balance user (rq_amount rq) now
    (fst (balance_row_or_create now user d)).

(** ** Trade engine *)

(** A numeric field of a request body as the handler's conversion
    ([Number] or [parseFloat]) sees it: missing ([undefined], [null] or
    the empty string), not a number (the conversion gives [NaN]), or the
    number the conversion gives.  [parseFloat] reads the longest numeric
    prefix of a text: ["10abc"] is the number 10 to it, and [NaN] is what
    it makes of a text with no such prefix. *)
Inductive Field :=
| Absent
| NotNumeric
| Numeric (q : Q).

Definition select_trade (id : Id) (d : Db) : option TradeRow :=
  Sql.get (fun t => (trade_id t =? id)%Z) (trades d).

(** [INSERT INTO trades (offer_id, buyer_id, seller_id, amount, price,
    asset_symbol, fiat_currency, status) VALUES (.., 'PENDING')]; the fee
    columns default to [0].  [amount] is [NUMERIC(20,8)] and keeps 8
    decimals of the request's amount, which is at most the offer's
    [remaining] and so fits; the other values are those of the offer. *)
Definition insert_trade (now : Timestamp) (offer : OfferRow)
  (buyerId sellerId : Id) (amountNum : Q) (d : Db) : Db * Id :=
  let id := trades_seq d in
  let row := mkTrade id (offer_id offer) buyerId sellerId
               (Numeric.round 8 amountNum)
               (offer_price offer) (offer_asset_symbol offer)
               (offer_fiat_currency offer) "PENDING" None None None None
               (Some 0) (Some 0) now in
  (next_trades_seq (set_trades (Sql.insert row) d), id).

Definition with_remaining (x : Q) (o : OfferRow) : OfferRow :=
  mkOffer (offer_id o) (maker_id o) (offer_type o) (offer_asset_symbol o)
    (offer_fiat_currency o) (offer_price o) (offer_amount o) x
    (min_limit o) (max_limit o) (payment_methods o) (offer_status o)
    (offer_created_at o) (offer_cancelled_at o).

(** [POST /trades] (acceptOffer). *)
Definition post_trades (now : Timestamp) (user : Id) (offerId : Id)
  (amount : Field) : Handler := fun d =>
  match (offerId =? 0)%Z, amount with
  | true, _ | _, Absent => (d, Status 400 OfferIdAndAmountRequired)
  | false, NotNumeric => (d, Status 400 AmountMustBePositive)
  | false, Numeric amountNum =>
      if Js.leb amountNum 0 then (d, Status 400 AmountMustBePositive)
      else
        match select_offer offerId d with
        | None => (d, Status 404 OfferNotAvailable)
        | Some offer =>
            if negb (offer_status offer =? "OPEN")%string
            then (d, Status 404 OfferNotAvailable)
            else if Js.ltb (remaining offer) amountNum
            then (d, Status 400 NotEnoughRemaining)
            else
              let is_sell := (offer_type offer =? "SELL")%string in
              let buyerId := if is_sell then user else maker_id offer in
              let sellerId := if is_sell then maker_id offer else user in
              let create_trade (d1 : Db) :=
                let '(d2, id) :=
                  insert_trade now offer buyerId sellerId amountNum d1 in
                let d3 :=
                  set_offers
                    (Sql.update (fun o => (offer_id o =? offer_id offer)%Z)
                       (fun o =>
                          with_remaining
                            (Numeric.round 8 (remaining o - amountNum)) o))
                    d2 in
                (d3, Json (BodyTrade (select_trade id d3))) in
              if (offer_type offer =? "BUY")%string
                 && (offer_asset_symbol offer =? "FDA")%string
              then
                let '(d1, balance) := balance_row_or_create now user d in
                let locked := locked_in_open_sell_offers user d1 in
                let holdingLocked := holding_locked now user d1 in
                let available := balance - locked in
                let holdingAmount := holding_floor d1 in
                let usableBalance :=
                  available - holdingAmount - holdingLocked in
                if Js.ltb balance amountNum
                then (d1, Status 400 InsufficientFdaBalance)
                else if Js.ltb usableBalance amountNum
                then (d1, Status 400 MinimumHoldingBalance)
                else create_trade (debit_balance user amountNum now d1)
              else create_trade d
        end
  end.

(** The columns of a trade that the handlers rewrite. *)
Definition with_paid (now : Timestamp) (shot : option string) (t : TradeRow)
  : TradeRow :=
  mkTrade (trade_id t) (trade_offer_id t) (buyer_id t) (seller_id t)
    (trade_amount t) (trade_price t) (trade_asset_symbol t)
    (trade_fiat_currency t) "PAID_PENDING_RELEASE" (Some now) (released_at t)
    (trade_cancelled_at t) shot (fee_amount t) (fee_rate t)
    (trade_created_at t).

Definition with_released (now : Timestamp) (fee rate : option Q)
  (t : TradeRow) : TradeRow :=
  mkTrade (trade_id t) (trade_offer_id t) (buyer_id t) (seller_id t)
    (trade_amount t) (trade_price t) (trade_asset_symbol t)
    (trade_fiat_currency t) "COMPLETED" (paid_at t) (Some now)
    (trade_cancelled_at t) (payment_screenshot t) fee rate
    (trade_created_at t).

Definition with_trade_cancelled (now : Timestamp) (t : TradeRow) : TradeRow :=
  mkTrade (trade_id t) (trade_offer_id t) (buyer_id t) (seller_id t)
    (trade_amount t) (trade_price t) (trade_asset_symbol t)
    (trade_fiat_currency t) "CANCELLED" (paid_at t) (released_at t)
    (Some now) (payment_screenshot t) (fee_amount t) (fee_rate t)
    (trade_created_at t).

Definition with_trade_status (s : string) (t : TradeRow) : TradeRow :=
  mkTrade (trade_id t) (trade_offer_id t) (buyer_id t) (seller_id t)
    (trade_amount t) (trade_price t) (trade_asset_symbol t)
    (trade_fiat_currency t) s (paid_at t) (released_at t)
    (trade_cancelled_at t) (payment_screenshot t) (fee_amount t) (fee_rate t)
    (trade_created_at t).

Definition update_trade (id : Id) (f : TradeRow -> TradeRow) : Db -> Db :=
  set_trades (Sql.update (fun t => (trade_id t =? id)%Z) f).

(** [payment_screenshot || null]. *)
Definition or_null (s : option string) : option string :=
  match s with
  | Some x => if Js.truthy_str x then Some x else None
  | None => None
  end.

(** [POST /trades/:id/mark-paid] (markPaid). *)
Definition post_trades_mark_paid (now : Timestamp) (user : Id) (id : Id)
  (payment_screenshot : option string) : Handler := fun d =>
  match select_trade id d with
  | None => (d, Status 404 TradeNotFound)
  | Some trade =>
      if negb (buyer_id trade =? user)%Z
      then (d, Status 403 OnlyBuyerCanMarkPaid)
      else
        let d1 := update_trade id (with_paid now (or_null payment_screenshot)) d in
        (d1, Json (BodyTrade (select_trade id d1)))
  end.

(** [feeSetting ? parseFloat(feeSetting.value) : 0]. *)
Definition feeRatePercent (d : Db) : Q :=
  match select_setting "p2p_fee_rate" d with
  | Some s => value s
  | None => 0
  end.

(** The buyer's balance row is created with balance [0] when missing. *)
Definition ensure_balance_row (now : Timestamp) (u : Id) (d : Db) : Db :=
  match select_balance u d with
  | Some _ => d
  | None => insert_balance u 0 now d
  end.

Definition insert_transfer (r : TransferRow) : Db -> Db :=
  set_internal_transfers (Sql.insert r).

(** [POST /trades/:id/release] (release), for a trade id that parses as an
    integer.  [fee_amount] is [NUMERIC(20,8)] and [fee_rate] is
    [NUMERIC(10,6)]: the trade keeps the fee with 8 decimals and the rate
    with 6. *)
Definition post_trades_release (now : Timestamp) (user : Id) (tradeId : Id)
  : Handler := fun d =>
  match select_trade tradeId d with
  | None => (d, Status 404 TradeNotFound)
  | Some trade =>
      if negb (seller_id trade =? user)%Z
      then (d, Status 403 OnlySellerCanRelease)
      else if negb (trade_status trade =? "PAID_PENDING_RELEASE")%string
      then (d, Status 400 NotPaidPendingRelease)
      else
        let P2P_FEE_RATE := feeRatePercent d / 100 in
        let fee := trade_amount trade * P2P_FEE_RATE in
        let amountToBuyer := trade_amount trade - fee in
        let d1 := ensure_balance_row now (buyer_id trade) d in
        let d2 := credit_balance (buyer_id trade) amountToBuyer now d1 in
        let d3 :=
          insert_transfer
            (mkTransfer (seller_id trade) (buyer_id trade) amountToBuyer
               (NoteTrade tradeId (trade_amount trade) fee)) d2 in
        let d4 :=
          update_trade tradeId
            (with_released now (Some (Numeric.round 8 fee))
               (Some (Numeric.round 6 P2P_FEE_RATE))) d3 in
        (d4, Json (BodyTrade (select_trade tradeId d4)))
  end.

(** [POST /trades/:id/cancel] (cancel). *)
Definition post_trades_cancel (now : Timestamp) (user : Id) (id : Id)
  : Handler := fun d =>
  match select_trade id d with
  | None => (d, Status 404 TradeNotFound)
  | Some trade =>
      if negb (buyer_id trade =? user)%Z && negb (seller_id trade =? user)%Z
      then (d, Status 403 OnlyBuyerOrSellerCanCancel)
      else if negb (trade_status trade =? "PENDING")%string
              && negb (trade_status trade =? "PENDING_PAYMENT")%string
      then (d, Status 400 CannotCancelTrade)
      else
        let d1 :=
          match select_offer (trade_offer_id trade) d with
          | Some offer =>
              set_offers
                (Sql.update (fun o => (offer_id o =? offer_id offer)%Z)
                   (fun o => with_remaining (remaining o + trade_amount trade) o))
                d
          | None => d
          end in
        let d2 := update_trade id (with_trade_cancelled now) d1 in
        (d2, Json (BodyTrade (select_trade id d2)))
  end.

(** ** Dispute arbiter *)

Definition select_dispute_of_trade (tradeId : Id) (d : Db)
  : option DisputeRow :=
  Sql.get (fun x => (dispute_trade_id x =? tradeId)%Z) (disputes d).

Definition select_dispute (id : Id) (d : Db) : option DisputeRow :=
  Sql.get (fun x => (dispute_id x =? id)%Z) (disputes d).

(** [INSERT INTO disputes (trade_id, raised_by_id, reason)]; [status]
    defaults to ['OPEN']. *)
Definition insert_dispute (now : Timestamp) (tradeId user : Id)
  (why : string) (d : Db) : Db * Id :=
  let id := disputes_seq d in
  let row := mkDispute id tradeId user "OPEN" why None None now None in
  (next_disputes_seq (set_disputes (Sql.insert row) d), id).

(** [2 * 60 * 60 * 1000] milliseconds. *)
Definition dispute_window : Z := (2 * 60 * 60 * 1000)%Z.

(** [POST /trades/:id/disputes] (openDispute).  A stored [paid_at] is a
    valid date, so the handler's test for an unparsable one never fires. *)
Definition post_trades_disputes (now : Timestamp) (user : Id) (id : Id)
  (why : string) : Handler := fun d =>
  if negb (Js.truthy_str why) then (d, Status 400 ReasonRequired)
  else
    match select_trade id d with
    | None => (d, Status 404 TradeNotFound)
    | Some trade =>
        let isBuyer := (buyer_id trade =? user)%Z in
        let isSeller := (seller_id trade =? user)%Z in
        if negb isBuyer && negb isSeller
        then (d, Status 403 OnlyBuyerOrSellerCanDispute)
        else
          let insert_and_answer :=
            match select_dispute_of_trade id d with
            | Some _ => (d, Status 400 DisputeAlreadyExists)
            | None =>
                let '(d1, did) := insert_dispute now id user why d in
                let dispute := select_dispute did d1 in
                let d2 := update_trade id (with_trade_status "DISPUTED") d1 in
                (d2, Json (BodyDispute dispute))
            end in
          if isBuyer && (trade_status trade =? "PAID_PENDING_RELEASE")%string
          then
            match paid_at trade with
            | None => (d, Status 400 ScreenshotNotUploaded)
            | Some paidAt =>
                let deadline := (paidAt + dispute_window)%Z in
                let isExpired := (deadline <? now)%Z in
                if isExpired then (d, Status 400 DisputeWindowExpired)
                else insert_and_answer
            end
          else insert_and_answer
    end.

Definition with_resolution (status : string) (note : option string)
  (by_id : Id) (now : Timestamp) (x : DisputeRow) : DisputeRow :=
  mkDispute (dispute_id x) (dispute_trade_id x) (raised_by_id x) status
    (reason x) note (Some by_id) (dispute_created_at x) (Some now).

(** [parseFloat(trade.fee_rate) || 0.01]: a [NULL] column parses to [NaN]
    and, like [0], is falsy. *)
Definition fee_rate_or_default (t : TradeRow) : Q :=
  match fee_rate t with
  | Some r => if Js.truthy_num r then r else 1 # 100
  | None => 1 # 100
  end.

(** [POST /admin/disputes/:id/resolve] (resolveDispute), behind the admin
    check of the router. *)
Definition post_admin_disputes_resolve (now : Timestamp) (user : Id)
  (id : Id) (status : string) (resolution_note : option string)
  (trade_action : string) : Handler := fun d =>
  if negb ((status =? "RESOLVED") || (status =? "REJECTED")
           || (status =? "CLOSED"))%string
  then (d, Status 400 ValidStatusRequired)
  else
    match select_dispute id d with
    | None => (d, Status 404 DisputeNotFound)
    | Some dispute =>
        if negb (dispute_status dispute =? "OPEN")%string
        then (d, Status 400 DisputeAlreadyClosed)
        else
          let d1 :=
            set_disputes
              (Sql.update (fun x => (dispute_id x =? id)%Z)
                 (with_resolution status (or_null resolution_note) user now))
              d in
          let d2 :=
            if (trade_action =? "release")%string then
              match select_trade (dispute_trade_id dispute) d1 with
              | Some trade =>
                  if (trade_status trade =? "DISPUTED")%string then
                    let d2 := ensure_balance_row now (buyer_id trade) d1 in
                    let feeAmount :=
                      trade_amount trade * fee_rate_or_default trade in
                    let amountToBuyer := trade_amount trade - feeAmount in
                    let d3 :=
                      credit_balance (buyer_id trade) amountToBuyer now d2 in
                    let d4 :=
                      insert_transfer
                        (mkTransfer (seller_id trade) (buyer_id trade)
                           amountToBuyer
                           (NoteDisputeRelease (trade_id trade)
                              (trade_amount trade) feeAmount)) d3 in
                    update_trade (trade_id trade)
                      (fun t => with_released now (fee_amount t) (fee_rate t) t)
                      d4
                  else d1
              | None => d1
              end
            else if (trade_action =? "cancel")%string then
              match select_trade (dispute_trade_id dispute) d1 with
              | Some trade =>
                  if (trade_status trade =? "DISPUTED")%string then
                    let d2 :=
                      match select_offer (trade_offer_id trade) d1 with
                      | Some offer =>
                          if (offer_type offer =? "SELL")%string
                             && (offer_asset_symbol offer =? "FDA")%string
                          then
                            credit_balance (seller_id trade)
                              (trade_amount trade) now
                              (ensure_balance_row now (seller_id trade) d1)
                          else d1
                      | None => d1
                      end in
                    update_trade (trade_id trade) (with_trade_cancelled now) d2
                  else d1
              | None => d1
              end
            else d1 in
          (d2, Json (BodyResolved (select_dispute id d2)))
    end.

(** ** Holding manager *)

Module Date.

Definition msPerDay : Z := 86400000%Z.

(** Days since the epoch of the first instants of a civil date
    ([m] from 1 to 12), proleptic Gregorian calendar. *)
Definition days_from_civil (y m dd : Z) : Z :=
  (let y := if m <=? 2 then y - 1 else y in
   let era := y / 400 in
   let yoe := y - era * 400 in
   let mp := if 2 <? m then m - 3 else m + 9 in
   let doy := (153 * mp + 2) / 5 + dd - 1 in
   let doe := yoe * 365 + yoe / 4 - yoe / 100 + doy in
   era * 146097 + doe - 719468)%Z.

(** Year, month (1 to 12) and day of the month of a day number. *)
Definition civil_from_days (z : Z) : Z * Z * Z :=
  (let z := z + 719468 in
   let era := z / 146097 in
   let doe := z - era * 146097 in
   let yoe := (doe - doe / 1460 + doe / 36524 - doe / 146096) / 365 in
   let doy := doe - (365 * yoe + yoe / 4 - yoe / 100) in
   let mp := (5 * doy + 2) / 153 in
   let dd := doy - (153 * mp + 2) / 5 + 1 in
   let m := if mp <? 10 then mp + 3 else mp - 9 in
   (if m <=? 2 then yoe + era * 400 + 1 else yoe + era * 400, m, dd))%Z.

(** [TimeClip]: a time value beyond 8.64e15 ms is an invalid date. *)
Definition timeClip (t : Z) : option Timestamp :=
  if (Z.abs t <=? 8640000000000000)%Z then Some t else None.

(** [d.setMonth(d.getMonth() + months)]: the month index is carried into
    the year, the day of the month and the time within the day are
    kept, a day past the end of the month overflows into the next one.
    [None] is the invalid date. *)
Definition addMonths (t : Timestamp) (months : Z) : option Timestamp :=
  (let '(y, m, dd) := civil_from_days (t / msPerDay) in
   let m0 := m - 1 + months in
   let ym := y + m0 / 12 in
   let mn := m0 mod 12 in
   let day := days_from_civil ym (mn + 1) 1 + dd - 1 in
   timeClip (day * msPerDay + t mod msPerDay))%Z.

(** [toISOString] writes a year from 0 to 9999 with four digits and any
    other year with a sign and six digits, a form that PostgreSQL does
    not read as a [TIMESTAMP]; nor does it know a year 0.  The instants
    from 0001-01-01 to 9999-12-31 are stored. *)
Definition iso_accepted (t : Timestamp) : bool :=
  ((-62135596800000 <=? t) && (t <? 253402300800000))%Z.

End Date.

(** [period.match(/^(\d+)M$/)] followed by [parseInt(match[1], 10)]: the
    number of months when the whole text is one or more decimal digits
    and then [M]. [acc] is the value of the digits read so far. *)
Fixpoint match_digits_M (acc : option N) (s : string) : option N :=
  match s with
  | EmptyString => None
  | String c r =>
      match Js.digit c with
      | Some k =>
          match_digits_M
            (Some (10 * match acc with Some n => n | None => 0 end + k)%N) r
      | None =>
          if (c =? "M")%char && (r =? "")%string then acc else None
      end
  end.

Definition match_period (s : string) : option N := match_digits_M None s.

(** [calculateExpirationDate(holdingPeriod)]: [inr None] is [null],
    [inl e] is the exception thrown ([toISOString] throws on an invalid
    date). *)
Definition calculateExpirationDate (now : Timestamp) (holdingPeriod : string)
  : Error + option Timestamp :=
  if negb (Js.truthy_str holdingPeriod) then inr None
  else
    let period := Js.trim (Js.toUpperCase holdingPeriod) in
    match match_period period with
    | None => inl InvalidHoldingPeriodFormat
    | Some months =>
        if (months <=? 0)%N then inl InvalidHoldingPeriodMonths
        else
          match Date.addMonths now (Z.of_N months) with
          | Some t => inr (Some t)
          | None => inl InvalidTimeValue
          end
    end.

(** The number of months a holding period stands for once it is
    upper-cased and trimmed as [calculateExpirationDate] does. *)
Definition period_months (holdingPeriod : string) : option N :=
  match_period (Js.trim (Js.toUpperCase holdingPeriod)).

(** The period is accepted by the format and month-count checks. *)
Definition valid_period (holdingPeriod : string) : bool :=
  match period_months holdingPeriod with
  | Some months => (0 <? months)%N
  | None => false
  end.

(** The pattern [^\d+M$] read as a statement about the text: one or more
    decimal digits followed by [M] and nothing else. *)
Definition digits_then_M (s : string) : Prop :=
  exists ds, ds <> ""
    /\ (forall c, In c (list_ascii_of_string ds) -> Js.digit c <> None)
    /\ s = ds ++ "M".

(** [SELECT .. FROM users WHERE fda_user_id = ? OR email = ? OR phone = ?]. *)
Definition select_user (userId : string) (d : Db) : option UserRow :=
  let same x :=
    match x with Some s => (s =? userId)%string | None => false end in
  Sql.get (fun u => same (fda_user_id u) || same (email u) || same (phone u))
    (users d).

(** [INSERT INTO fda_holdings (user_id, amount, holding_period, expires_at,
    created_at)]: [amount] is [NUMERIC(30,18)], [holding_period] is
    [VARCHAR(20)], [expires_at] is a [TIMESTAMP] read from the text of
    [toISOString].  A text that is no timestamp is refused when the
    statement is bound, before an identifier is drawn; a value that does
    not fit its column is refused when the row is built, after it. *)
Definition insert_holding (now : Timestamp) (u : Id) (amount : Q)
  (period : string) (expiresAt : Timestamp) (d : Db) : Db * option Id :=
  let id := fda_holdings_seq d in
  if negb (Date.iso_accepted expiresAt) then (d, None)
  else
    match Numeric.fits 30 18 amount, Text.varchar 20 period with
    | true, Some stored =>
        let row := mkHolding id u amount stored expiresAt now in
        (next_fda_holdings_seq (set_fda_holdings (Sql.insert row) d), Some id)
    | _, _ => (next_fda_holdings_seq d, None)
    end.

(** [POST /fda/transfer-to-mc-wallet] (the bulk-funding operation), behind
    the origin and API-key checks of the router. *)
Definition post_fda_transfer_to_mc_wallet (now : Timestamp) (userId : string)
  (amount : Field) (holdingPeriod : string) : Handler := fun d =>
  if negb (Js.truthy_str userId) then (d, Status 400 UserIdRequired)
  else
    match amount with
    | Absent => (d, Status 400 FdaAmountRequired)
    | NotNumeric => (d, Status 400 FdaAmountNotNumber)
    | Numeric amountNum =>
        if Js.leb amountNum 0 then (d, Status 400 FdaAmountNotPositive)
        else
          let validated :=
            if Js.truthy_str holdingPeriod
            then calculateExpirationDate now holdingPeriod
            else inr None in
          match validated with
          | inl e => (d, Status 400 e)
          | inr expiresAt =>
              match select_user userId d with
              | None => (d, Status 404 UserNotFoundInWallet)
              | Some userRow =>
                  let localUserId := user_id userRow in
                  let oldBalance := balance_of localUserId d in
                  let answer (d2 : Db) (holdingId : option Id) :=
                    (d2, Json (BodyTransfer localUserId amountNum oldBalance
                                 (balance_of localUserId d2) expiresAt
                                 holdingId)) in
                  match deposit localUserId amountNum now d with
                  | None => (d, Status 500 FailedToProcessTransfer)
                  | Some d1 =>
                      match Js.truthy_str holdingPeriod, expiresAt with
                      | true, Some e =>
                          match insert_holding now localUserId amountNum
                                  (Js.toUpperCase holdingPeriod) e d1 with
                          | (d2, Some hid) => answer d2 (Some hid)
                          | (d2, None) =>
                              (d2, Status 500 FailedToProcessTransfer)
                          end
                      | _, _ => answer d1 None
                      end
                  end
              end
          end
    end.

(** ** Outcomes named by the properties *)

(** The dispute that [POST /trades/:id/disputes] inserts. *)
Definition new_dispute (now : Timestamp) (user id : Id) (why : string)
  (d : Db) : DisputeRow :=
  mkDispute (disputes_seq d) id user "OPEN" why None None now None.

(** The request opened a dispute: it was answered with the dispute read
    back, one OPEN dispute for the trade was appended, every row of the
    trade now has status DISPUTED and nothing else of the row changed. *)
Definition dispute_opened (now : Timestamp) (user id : Id) (why : string)
  (d : Db) : Prop :=
  let d' := fst (post_trades_disputes now user id why d) in
  (exists x, snd (post_trades_disputes now user id why d)
             = Json (BodyDispute x))
  /\ disputes d' = (disputes d ++ [new_dispute now user id why d])%list
  /\ trades d'
     = Sql.update (fun t => (trade_id t =? id)%Z)
         (with_trade_status "DISPUTED") (trades d)
  /\ internal_balances d' = internal_balances d.

(** The request was refused because the window after payment is over, and
    the database is as before. *)
Definition dispute_refused_expired (now : Timestamp) (user id : Id)
  (why : string) (d : Db) : Prop :=
  post_trades_disputes now user id why d = (d, Status 400 DisputeWindowExpired).

(** ** The statements of the specification that the code departs from *)

Module AsSpecified.


(** A SELL offer in FDA that is created and then cancelled by its maker,
    with no trade in between, leaves the maker's balance where it was. *)
Definition create_then_cancel_conserves_balance : Prop :=
  forall now now' user rq d,
    normalizedType rq = "SELL" ->
    rq_assetSymbol rq = "FDA" ->
    rq_fiatCurrency rq <> "" ->
    ~ rq_price rq == 0 ->
    ~ rq_amount rq == 0 ->
    select_offer (offers_seq d) d = None ->
    (exists b, snd (post_offers now user rq d) = Json b) ->
    (exists b, snd (post_offers_cancel now' user (offers_seq d)
                      (fst (post_offers now user rq d))) = Json b) ->
    balance_of user
      (fst (post_offers_cancel now' user (offers_seq d)
              (fst (post_offers now user rq d))))
    == balance_of user d.

(** markPaid is allowed only while the trade is PENDING or already
    PAID_PENDING_RELEASE. *)
Definition markPaid_only_pending_or_paid : Prop :=
  forall now user id shot d t b,
    select_trade id d = Some t ->
    snd (post_trades_mark_paid now user id shot d) = Json b ->
    trade_status t = "PENDING" \/ trade_status t = "PAID_PENDING_RELEASE".

(** Every trade created by acceptOffer has [buyer_id <> seller_id]. *)
Definition accepted_trade_parties_differ : Prop :=
  forall now user offerId amount d d' t,
    post_trades now user offerId amount d = (d', Json (BodyTrade (Some t))) ->
    buyer_id t <> seller_id t.

(** The bulk-funding operation rejects every holding-period text that
    does not match [^\d+M$]. *)
Definition rejects_every_period_not_matching : Prop :=
  forall now userId amount holdingPeriod d,
    holdingPeriod <> "" ->
    match_period holdingPeriod = None ->
    exists e, snd (post_fda_transfer_to_mc_wallet now userId amount
                     holdingPeriod d) = Status 400 e.

End AsSpecified.

(** ** A ledger to run the handlers on *)

Module Scenario.

Definition alice : Id := 1%Z.
Definition bob : Id := 2%Z.
Definition arbiter : Id := 3%Z.

(** 2023-11-14T22:13:20Z. *)
Definition t0 : Timestamp := 1700000000000%Z.
Definition minute : Z := 60000%Z.

(** Alice owns 160 FDA, the fee rate is 5 percent, no holding floor. *)
Definition ledger : Db :=
  mkDb [mkUser alice (Some "FDA1001") (Some "alice@example.com") None;
        mkUser bob (Some "FDA1002") (Some "bob@example.com") None;
        mkUser arbiter None (Some "admin@gmail.com") None]
       [] [] []
       [mkBalance alice 160 t0]
       [mkSetting "p2p_fee_rate" 5; mkSetting "holding_fda_amount" 0]
       [] [] 1%Z 1%Z 1%Z 1%Z.

Definition sell100 : OfferRequest :=
  mkOfferRequest "sell" "FDA" "INR" 10 100 None None None.

(** Alice offers 100 FDA for sale. *)
Definition offered : Db := fst (post_offers t0 alice sell100 ledger).

(** Bob accepts the whole offer and marks the trade paid. *)
Definition accepted : Db :=
  fst (post_trades (t0 + minute)%Z bob 1%Z (Numeric 100) offered).

Definition paid : Db :=
  fst (post_trades_mark_paid (t0 + 2 * minute)%Z bob 1%Z (Some "proof.png")
         accepted).

(** Either Alice releases ... *)
Definition released : Db :=
  fst (post_trades_release (t0 + 3 * minute)%Z alice 1%Z paid).

(** ... or Bob opens a dispute that the arbiter resolves with a release. *)
Definition disputed : Db :=
  fst (post_trades_disputes (t0 + 3 * minute)%Z bob 1%Z "tokens not released"
         paid).

Definition resolved : Db :=
  fst (post_admin_disputes_resolve (t0 + 4 * minute)%Z arbiter 1%Z "RESOLVED"
         None "release" disputed).

(** Alice cancels the pending trade instead. *)
Definition trade_cancelled : Db :=
  fst (post_trades_cancel (t0 + 2 * minute)%Z alice 1%Z accepted).

(** Alice accepts her own offer. *)
Definition self_accepted : Db * Response :=
  post_trades (t0 + minute)%Z alice 1%Z (Numeric 100) offered.

(** An offer whose amount has nine decimals, and its cancellation. *)
Definition sell_nine_decimals : OfferRequest :=
  mkOfferRequest "SELL" "FDA" "INR" 10 0.123456789 None None None.

Definition offered_nine : Db :=
  fst (post_offers t0 alice sell_nine_decimals ledger).

Definition withdrawn_nine : Db :=
  fst (post_offers_cancel (t0 + minute)%Z alice 1%Z offered_nine).

Definition hour : Z := 3600000%Z.





End Scenario.

(** ** Balance figures, deposits and holding periods *)

Module Wallet.

(** [Math.max(0, x)]. *)
Definition max0 (x : Q) : Q := if Js.ltb 0 x then x else 0.

(** The figures [GET /internal/balance] answers with. *)
Record BalanceView := mkBalanceView {
  view_balance : Q;
  view_available : Q;
  view_locked : Q;
  view_holdingLocked : Q;
  view_total : Q;
  view_holding : Q;
  view_usable : Q
}.

(** [GET /internal/balance]. *)
Definition get_internal_balance (now : Timestamp) (user : Id) (d : Db)
  : BalanceView :=
  let totalBalance := balance_of user d in
  let locked := locked_in_open_sell_offers user d in
  let holdingLocked := holding_locked now user d in
  let holdingAmount := holding_floor d in
  mkBalanceView (totalBalance + locked) totalBalance locked holdingLocked
    (totalBalance + locked) holdingAmount
    (max0 (totalBalance - holdingAmount - holdingLocked)).

(** The messages of the two handlers below. *)
Inductive Failure :=
| AmountRequired
| ValidAmountRequired
| NoRowsAffected
| HoldingPeriodRequired
| InvalidPeriod (e : Error)
| HoldingNotFound
| UpdateFailed
| AddBalanceFailed.

(** What a handler answers: the body of the success, or a status code
    with its message. *)
Inductive Answer (A : Type) :=
| Done (body : A)
| Failed (code : Z) (e : Failure).
Arguments Done {A} body.
Arguments Failed {A} code e.



Definition select_holding (id : Id) (d : Db) : option HoldingRow :=
  Sql.get (fun h => (holding_id h =? id)%Z) (fda_holdings d).

(** The columns that [UPDATE fda_holdings SET holding_period = ?,
    expires_at = ? WHERE id = ?] rewrites. *)
Definition with_period (period : string) (expiresAt : Timestamp)
  (h : HoldingRow) : HoldingRow :=
  mkHolding (holding_id h) (holding_user_id h) (holding_amount h) period
    expiresAt (holding_created_at h).

(** The update as PostgreSQL runs it: [holding_period] is [VARCHAR(20)]
    and [expires_at] a [TIMESTAMP] read from the text of [toISOString];
    [None] when one of them is refused. *)
Definition update_period (id : Id) (period : string) (expiresAt : Timestamp)
  (d : Db) : option Db :=
  match Date.iso_accepted expiresAt, Text.varchar 20 period with
  | true, Some stored =>
      Some (set_fda_holdings
              (Sql.update (fun h => (holding_id h =? id)%Z)
                 (with_period stored expiresAt)) d)
  | _, _ => None
  end.

(** The holding of the answer: the row joined with its user, and
    [isExpired]. *)
Record HoldingView := mkHoldingView {
  view_holding_row : HoldingRow;
  view_user : UserRow;
  view_isExpired : bool
}.

(** [PUT /admin/holdings/:id] (updateHoldingPeriod), behind the admin
    check of the router. *)
Definition put_admin_holdings (now : Timestamp) (id : Id)
  (holdingPeriod : string) (d : Db) : Db * Answer HoldingView :=
  if negb (Js.truthy_str holdingPeriod)
  then (d, Failed 400 HoldingPeriodRequired)
  else
    match calculateExpirationDate now holdingPeriod with
    | inl e => (d, Failed 400 (InvalidPeriod e))
    | inr expiresAt =>
        match select_holding id d with
        | None => (d, Failed 404 HoldingNotFound)
        | Some _ =>
            match expiresAt with
            | None => (d, Failed 500 UpdateFailed)
            | Some e =>
              match update_period id (Js.toUpperCase holdingPeriod) e d with
              | None => (d, Failed 500 UpdateFailed)
              | Some d1 =>
                let joined :=
                  match select_holding id d1 with
                  | Some h =>
                      match Sql.get (fun u => (user_id u =? holding_user_id h)%Z)
                              (users d1) with
                      | Some u => Some (mkHoldingView h u (expires_at h <=? now)%Z)
                      | None => None
                      end
                  | None => None
                  end in
                match joined with
                | Some v => (d1, Done v)
                | None => (d1, Failed 500 UpdateFailed)
                end
              end
            end
        end
    end.

End Wallet.

(** ** Outcomes named by further properties *)

(** The offer that [POST /offers] inserts for a request that fits the
    columns: the amounts keep 8 decimals. *)
Definition new_offer (now : Timestamp) (user : Id) (ty : string)
  (rq : OfferRequest) (d : Db) : OfferRow :=
  mkOffer (offers_seq d) user ty (Text.stored 50 (rq_assetSymbol rq))
    (Text.stored 50 (rq_fiatCurrency rq)) (Numeric.round 8 (rq_price rq))
    (Numeric.round 8 (rq_amount rq)) (Numeric.round 8 (rq_amount rq))
    (option_map (Numeric.round 8) (rq_minLimit rq))
    (option_map (Numeric.round 8) (rq_maxLimit rq))
    (rq_paymentMethods rq) "OPEN" now None.

(** The trade that [POST /trades] inserts for an offer: its amount is
    the request's, with the 8 decimals of [trades.amount]. *)
Definition new_trade (now : Timestamp) (user : Id) (offer : OfferRow)
  (amountNum : Q) (d : Db) : TradeRow :=
  mkTrade (trades_seq d) (offer_id offer)
    (if (offer_type offer =? "SELL")%string then user else maker_id offer)
    (if (offer_type offer =? "SELL")%string then maker_id offer else user)
    (Numeric.round 8 amountNum) (offer_price offer) (offer_asset_symbol offer)
    (offer_fiat_currency offer) "PENDING" None None None None
    (Some 0) (Some 0) now.

(** The request was refused with [code] and [e] and nothing was written. *)
Definition refused (h : Handler) (d : Db) (code : Z) (e : Error) : Prop :=
  h d = (d, Status code e).

(** The condition of [UPDATE offers .. WHERE id = ?]. *)
Definition offer_has_id (id : Id) (o : OfferRow) : bool :=
  (offer_id o =? id)%Z.

(** The offers a user has open for sale in FDA. *)
Definition open_sell_fda (u : Id) (o : OfferRow) : bool :=
  (maker_id o =? u)%Z && (offer_type o =? "SELL")%string
  && (offer_status o =? "OPEN")%string
  && (offer_asset_symbol o =? "FDA")%string.



(** The acceptor of the offer sells FDA: the acceptance debits. *)
Definition commits_acceptor (o : OfferRow) : bool :=
  (offer_type o =? "BUY")%string && (offer_asset_symbol o =? "FDA")%string.

(** The end of [POST /trades]: the trade is inserted, the offer's
    [remaining] is lowered and the trade is read back. *)
Definition accept_into (now : Timestamp) (user : Id) (offer : OfferRow)
  (amountNum : Q) (d1 : Db) : Db * Response :=
  let '(d2, id) :=
    insert_trade now offer
      (if (offer_type offer =? "SELL")%string then user else maker_id offer)
      (if (offer_type offer =? "SELL")%string then maker_id offer else user)
      amountNum d1 in
  let d3 :=
    set_offers
      (Sql.update (fun o => (offer_id o =? offer_id offer)%Z)
         (fun o => with_remaining (Numeric.round 8 (remaining o - amountNum)) o))
      d2 in
  (d3, Json (BodyTrade (select_trade id d3))).

(** [['RESOLVED', 'REJECTED', 'CLOSED'].includes(status)]. *)
Definition valid_resolution (status : string) : bool :=
  ((status =? "RESOLVED") || (status =? "REJECTED")
   || (status =? "CLOSED"))%string.





(** ** More of the ledger *)

Module Cases.

(** Bob bids for 40 FDA; Alice accepts the bid and so commits 40 FDA. *)
Definition buy40 : OfferRequest :=
  mkOfferRequest "BUY" "FDA" "INR" 10 40 None None None.

Definition bid : Db :=
  fst (post_offers Scenario.t0 Scenario.bob buy40 Scenario.ledger).

(** Bob is funded 10 FDA, held for six months. *)
Definition funded : Db :=
  fst (post_fda_transfer_to_mc_wallet Scenario.t0 "FDA1002" (Numeric 10) "6m"
         Scenario.ledger).

(** 2024-05-14T22:13:20Z, six months after [Scenario.t0]. *)
Definition six_months_on : Timestamp := 1715724800000%Z.

(** A bid whose currency has 51 characters. *)
Definition buy_overlong : OfferRequest :=
  mkOfferRequest "BUY" "FDA"
    "INR-INR-INR-INR-INR-INR-INR-INR-INR-INR-INR-INR-INR" 10 40 None None
    None.


(** U+00A0 (no-break space), U+2028 (line separator) and U+017F (long
    s) in UTF-8. *)
Definition no_break_space : string :=
  String (ascii_of_nat 194) (String (ascii_of_nat 160) "").

Definition line_separator : string :=
  String (ascii_of_nat 226)
    (String (ascii_of_nat 128) (String (ascii_of_nat 168) "")).

Definition long_s : string :=
  String (ascii_of_nat 197) (String (ascii_of_nat 191) "").

(** Six months, written with 21 characters. *)
Definition overlong_period : string := "00000000000000000006m".


(** Bob accepts half of the last decimal of Alice's offer. *)
Definition sliver : Q := 0.000000005.

Definition sliver_accepted : Db :=
  fst (post_trades (Scenario.t0 + Scenario.minute)%Z Scenario.bob 1%Z
         (Numeric sliver) Scenario.offered).

End Cases.

(** The handlers are run on a ledger by evaluation. *)
Ltac evaluate := vm_compute; reflexivity.
Ltac refute E := vm_compute in E; discriminate E.

(** * Properties *)

(** ** Facts about tables *)

Module SqlFacts.
Section Table.
Context {R : Type}.
Implicit Types (p q : R -> bool) (f : R -> R) (t : list R).

(** A read after an update that keeps the selecting column. *)
Lemma get_update p q f t :
  (forall r, p (f r) = p r) ->
  Sql.get p (Sql.update q f t)
  = option_map (fun r => if q r then f r else r) (Sql.get p t).
Proof.
  intros Hp. unfold Sql.get, Sql.update.
  induction t as [|r t IH]; simpl; [reflexivity|].
  destruct (q r) eqn:Hq.
  - rewrite Hp. destruct (p r); simpl; [now rewrite Hq | exact IH].
  - destruct (p r); simpl; [now rewrite Hq | exact IH].
Qed.

Lemma get_insert_found p t r r' :
  Sql.get p t = Some r -> Sql.get p (Sql.insert r' t) = Some r.
Proof.
  unfold Sql.get, Sql.insert.
  induction t as [|x t IH]; simpl; [discriminate|].
  destruct (p x); [trivial | exact IH].
Qed.

Lemma get_insert_fresh p t r' :
  Sql.get p t = None ->
  Sql.get p (Sql.insert r' t) = if p r' then Some r' else None.
Proof.
  unfold Sql.get, Sql.insert.
  induction t as [|x t IH]; simpl; [reflexivity|].
  destruct (p x); [discriminate | exact IH].
Qed.

Lemma get_holds p t r : Sql.get p t = Some r -> p r = true.
Proof. intros H. apply find_some in H. tauto. Qed.


End Table.
End SqlFacts.

Lemma ltb_lt x y : Js.ltb x y = true <-> x < y.
Proof.
  unfold Js.ltb. rewrite negb_true_iff, <- not_true_iff_false, Qle_bool_iff.
  split; [apply Qnot_le_lt | apply Qlt_not_le].
Qed.

Lemma ltb_ge x y : Js.ltb x y = false <-> ~ x < y.
Proof. rewrite <- ltb_lt. symmetry. apply not_true_iff_false. Qed.

Lemma truthy_num_nonzero q : ~ q == 0 -> Js.truthy_num q = true.
Proof.
  intros H. unfold Js.truthy_num. rewrite negb_true_iff.
  apply not_true_iff_false. now rewrite Qeq_bool_iff.
Qed.

Lemma truthy_str_nonempty s : s <> "" -> Js.truthy_str s = true.
Proof.
  intros H. unfold Js.truthy_str. rewrite negb_true_iff.
  now apply String.eqb_neq.
Qed.

(** ** Balance rows *)

Lemma balance_of_or_create now u d :
  snd (balance_row_or_create now u d) = balance_of u d
  /\ balance_of u (fst (balance_row_or_create now u d)) = balance_of u d
  /\ select_balance u (fst (balance_row_or_create now u d)) <> None
  /\ offers (fst (balance_row_or_create now u d)) = offers d
  /\ fda_holdings (fst (balance_row_or_create now u d)) = fda_holdings d
  /\ settings (fst (balance_row_or_create now u d)) = settings d.
Proof.
  unfold balance_row_or_create, balance_of.
  destruct (select_balance u d) as [r|] eqn:E; simpl.
  - rewrite E. repeat split; congruence.
  - unfold select_balance in *; simpl.
    rewrite (SqlFacts.get_insert_fresh _ _ _ E); simpl.
    rewrite Z.eqb_refl; simpl. repeat split; congruence.
Qed.

Lemma balance_of_debit u x now d :
  select_balance u d <> None ->
  balance_of u (debit_balance u x now d) = balance_of u d - x.
Proof.
  unfold balance_of, select_balance, debit_balance; simpl. intros H.
  rewrite SqlFacts.get_update by reflexivity.
  destruct (Sql.get _ (internal_balances d)) as [r|] eqn:E; [|congruence].
  simpl. now rewrite (SqlFacts.get_holds _ _ _ E).
Qed.


Lemma or_create_offers_seq now u d :
  offers_seq (fst (balance_row_or_create now u d)) = offers_seq d.
Proof.
  unfold balance_row_or_create. now destruct (select_balance u d).
Qed.

Lemma select_balance_debit u x now d :
  select_balance u d <> None -> select_balance u (debit_balance u x now d) <> None.
Proof.
  unfold select_balance, debit_balance; simpl. intros H.
  rewrite SqlFacts.get_update by reflexivity.
  destruct (Sql.get _ (internal_balances d)); [discriminate|congruence].
Qed.

(** ** createOffer *)

Lemma debit_stored_after_create now u x d :
  debit_balance_stored u x now (fst (balance_row_or_create now u d))
  = if Numeric.fits 30 18 (balance_of u d - x)
    then Some (debit_balance u x now (fst (balance_row_or_create now u d)))
    else None.
Proof.
  destruct (balance_of_or_create now u d) as (_ & Hbal & Hrow & _).
  unfold debit_balance_stored. unfold balance_of in Hbal at 1.
  destruct (select_balance u (fst (balance_row_or_create now u d)));
    [now rewrite Hbal | congruence].
Qed.

Lemma insert_and_answer_fits now user ty rq d1 :
  offer_fits rq = true ->
  let d2 :=
    next_offers_seq
      (set_offers (Sql.insert (new_offer now user ty rq d1)) d1) in
  insert_and_answer now user ty rq d1
  = (d2, Json (BodyOffer (select_offer (offers_seq d1) d2))).
Proof.
  intros H. unfold insert_and_answer, insert_offer, offer_row.
  now rewrite H.
Qed.

Lemma insert_and_answer_refused now user ty rq d1 :
  offer_fits rq = false ->
  insert_and_answer now user ty rq d1
  = (next_offers_seq d1, Status 500 FailedToCreateOffer).
Proof.
  intros H. unfold insert_and_answer, insert_offer, offer_row.
  now rewrite H.
Qed.

Lemma insert_and_answer_json now user ty rq d1 b :
  snd (insert_and_answer now user ty rq d1) = Json b -> offer_fits rq = true.
Proof.
  destruct (offer_fits rq) eqn:E; [reflexivity|].
  rewrite insert_and_answer_refused by exact E. discriminate.
Qed.

Section CreateOffer.
Variables (now : Timestamp) (user : Id) (rq : OfferRequest) (d : Db).
Hypothesis Hsell : normalizedType rq = "SELL".
Hypothesis Hasset : rq_assetSymbol rq = "FDA".
Hypothesis Hfiat : rq_fiatCurrency rq <> "".
Hypothesis Hprice : ~ rq_price rq == 0.
Hypothesis Hamount : ~ rq_amount rq == 0.

(** The path of [POST /offers] for a SELL offer in FDA whose required
    fields are present. *)
Lemma post_offers_sell_fda :
  post_offers now user rq d =
  if Js.ltb (balance_of user d) (rq_amount rq)
  then (fst (balance_row_or_create now user d),
        Status 400 InsufficientFdaBalance)
  else if Js.ltb (usable_balance now user d) (rq_amount rq)
  then (fst (balance_row_or_create now user d),
        Status 400 MinimumHoldingBalance)
  else if Numeric.fits 30 18 (balance_of user d - rq_amount rq)
  then insert_and_answer now user "SELL" rq (db_locked now user rq d)
  else (fst (balance_row_or_create now user d),
        Status 500 FailedToCreateOffer).
Proof.
  assert (Htype : rq_type rq <> "").
  { intros E. unfold normalizedType in Hsell. rewrite E in Hsell.
    discriminate. }
  unfold post_offers, db_locked.
  rewrite (truthy_str_nonempty _ Htype), (truthy_str_nonempty _ Hfiat),
    (truthy_num_nonzero _ Hprice), (truthy_num_nonzero _ Hamount).
  rewrite Hsell, Hasset; simpl.
  pose proof (debit_stored_after_create now user (rq_amount rq) d) as Hdebit.
  destruct (balance_of_or_create now user d)
    as (Hbal & _ & _ & Hoff & Hhold & Hset).
  destruct (balance_row_or_create now user d) as [d1 b] eqn:E.
  simpl in *. subst b.
  replace (balance_of user d - locked_in_open_sell_offers user d1
           - holding_floor d1 - holding_locked now user d1)
    with (usable_balance now user d).
  - destruct (Js.ltb (balance_of user d) (rq_amount rq)); [reflexivity|].
    destruct (Js.ltb (usable_balance now user d) (rq_amount rq));
      [reflexivity|].
    rewrite Hdebit.
    now destruct (Numeric.fits 30 18 (balance_of user d - rq_amount rq)).
  - unfold usable_balance, locked_in_open_sell_offers, holding_floor,
      holding_locked, select_setting. now rewrite Hoff, Hhold, Hset.
Qed.

(** The same path when the request is answered with the offer. *)
Lemma post_offers_sell_fda_json b :
  snd (post_offers now user rq d) = Json b ->
  Js.ltb (balance_of user d) (rq_amount rq) = false
  /\ Js.ltb (usable_balance now user d) (rq_amount rq) = false
  /\ offer_fits rq = true
  /\ post_offers now user rq d
     = insert_and_answer now user "SELL" rq (db_locked now user rq d).
Proof.
  rewrite post_offers_sell_fda.
  destruct (Js.ltb (balance_of user d) (rq_amount rq)); [discriminate|].
  destruct (Js.ltb (usable_balance now user d) (rq_amount rq));
    [discriminate|].
  destruct (Numeric.fits 30 18 (balance_of user d - rq_amount rq));
    [|discriminate].
  intros H. repeat split. exact (insert_and_answer_json _ _ _ _ _ _ H).
Qed.

End CreateOffer.

(** The database after an accepted SELL offer in FDA. *)
Lemma created_offer_db now user rq d :
  let d' :=
    next_offers_seq
      (set_offers
         (Sql.insert (new_offer now user "SELL" rq (db_locked now user rq d)))
         (db_locked now user rq d)) in
  offers d' = Sql.insert (new_offer now user "SELL" rq d) (offers d)
  /\ balance_of user d' = balance_of user d - rq_amount rq
  /\ select_balance user d' <> None
  /\ settings d' = settings d
  /\ fda_holdings d' = fda_holdings d.
Proof.
  destruct (balance_of_or_create now user d)
    as (_ & Hbal' & Hrow & Hoff & Hhold & Hset).
  pose proof (or_create_offers_seq now user d) as Hseq.
  cbv zeta. split; [|split; [|split; [|split]]].
  - unfold new_offer, next_offers_seq, set_offers.
    cbn [offers]. unfold db_locked, debit_balance, set_internal_balances.
    cbn [offers offers_seq]. now rewrite Hoff, Hseq.
  - change (balance_of user (db_locked now user rq d)
            = balance_of user d - rq_amount rq).
    unfold db_locked. now rewrite balance_of_debit, Hbal'.
  - change (select_balance user (db_locked now user rq d) <> None).
    unfold db_locked. now apply select_balance_debit.
  - exact Hset.
  - exact Hhold.
Qed.


(** ** cancelOffer after createOffer *)


(** ** Reads after writes *)

Lemma select_trade_update id f d t :
  (forall x, trade_id (f x) = trade_id x) ->
  select_trade id d = Some t ->
  select_trade id (update_trade id f d) = Some (f t).
Proof.
  intros Hf H. unfold select_trade, update_trade in *. cbn [trades set_trades].
  rewrite SqlFacts.get_update by (intros x; now rewrite Hf).
  rewrite H. cbn [option_map].
  now rewrite (SqlFacts.get_holds _ _ _ H).
Qed.




(** ** markPaid *)

(** C3, as the code has it.  [POST /trades/:id/mark-paid] answers 403 and
    changes nothing unless the requester is the trade's buyer.  For the
    buyer it succeeds in every status of the trade: it sets the status to
    PAID_PENDING_RELEASE and [paid_at] to the time of the call, so that a
    second call leaves the status at PAID_PENDING_RELEASE with [paid_at]
    equal to the time of the later call. *)
Theorem markPaid_buyer_restamps now user id shot d t :
  select_trade id d = Some t ->
  (buyer_id t <> user ->
     post_trades_mark_paid now user id shot d
     = (d, Status 403 OnlyBuyerCanMarkPaid))
  /\ (buyer_id t = user ->
     let d1 := fst (post_trades_mark_paid now user id shot d) in
     (exists t1,
        snd (post_trades_mark_paid now user id shot d)
        = Json (BodyTrade (Some t1))
        /\ select_trade id d1 = Some t1
        /\ trade_status t1 = "PAID_PENDING_RELEASE"
        /\ paid_at t1 = Some now)
     /\ forall later shot',
        let d2 := fst (post_trades_mark_paid later user id shot' d1) in
        exists t2,
          snd (post_trades_mark_paid later user id shot' d1)
          = Json (BodyTrade (Some t2))
          /\ select_trade id d2 = Some t2
          /\ trade_status t2 = "PAID_PENDING_RELEASE"
          /\ paid_at t2 = Some later).
Proof.
  intros Hsel.
  assert (Hstep : forall now0 shot0 d0 t0,
    select_trade id d0 = Some t0 -> buyer_id t0 = user ->
    post_trades_mark_paid now0 user id shot0 d0
    = (update_trade id (with_paid now0 (or_null shot0)) d0,
       Json (BodyTrade (Some (with_paid now0 (or_null shot0) t0))))).
  { intros now0 shot0 d0 t0 H0 Hb. unfold post_trades_mark_paid.
    rewrite H0. rewrite (proj2 (Z.eqb_eq _ _) Hb). cbn [negb].
    now rewrite (select_trade_update id (with_paid now0 (or_null shot0)) d0 t0
                   (fun _ => eq_refl) H0). }
  split.
  - intros Hne. unfold post_trades_mark_paid. rewrite Hsel.
    now rewrite (proj2 (Z.eqb_neq _ _) Hne).
  - intros Hb d1. subst d1.
    rewrite (Hstep now shot d t Hsel Hb). cbn [fst snd].
    pose proof (select_trade_update id (with_paid now (or_null shot)) d t
                  (fun _ => eq_refl) Hsel) as Hsel1.
    split.
    + eexists. repeat split. exact Hsel1.
    + intros later shot'. cbv zeta.
      rewrite (Hstep later shot' _ _ Hsel1 Hb). cbn [fst snd].
      eexists. repeat split.
      exact (select_trade_update id (with_paid later (or_null shot')) _ _
               (fun _ => eq_refl) Hsel1).
Qed.

(** ** release *)


(** Rounding keeps a number that is not negative so. *)
Lemma round_nonneg s q : 0 <= q -> 0 <= Numeric.round s q.
Proof.
  intros H. unfold Numeric.round.
  destruct (_ =? 0)%Z; [exact H|].
  unfold Qle in *. cbn in *. rewrite Z.mul_1_r in *.
  apply Z.mul_nonneg_nonneg.
  - apply Z.sgn_nonneg. apply Z.mul_nonneg_nonneg; [exact H|].
    apply Z.pow_nonneg. discriminate.
  - assert (0 <= Z.abs (Qnum q * 10 ^ s) / Z.pos (Qden q))%Z
      by (apply Z.div_pos; [apply Z.abs_nonneg | reflexivity]).
    destruct (_ <? _)%Z; lia.
Qed.



(** ** cancel *)


(** ** openDispute *)

Section OpenDispute.
Variables (now : Timestamp) (user id : Id) (why : string) (d : Db)
          (t : TradeRow).
Hypothesis Hwhy : why <> "".
Hypothesis Hsel : select_trade id d = Some t.
Hypothesis Hparty : buyer_id t = user \/ seller_id t = user.

Lemma party_check :
  negb (buyer_id t =? user)%Z && negb (seller_id t =? user)%Z = false.
Proof.
  destruct Hparty as [H|H]; rewrite (proj2 (Z.eqb_eq _ _) H);
    [reflexivity | apply andb_false_r].
Qed.

(** Past the window check, a trade without dispute gets one. *)
Lemma insert_dispute_opens :
  select_dispute_of_trade id d = None ->
  (buyer_id t =? user)%Z
  && (trade_status t =? "PAID_PENDING_RELEASE")%string = false
  \/ (exists p, paid_at t = Some p /\ (now <= p + dispute_window)%Z) ->
  dispute_opened now user id why d.
Proof.
  intros Hnone Hwin. unfold dispute_opened, post_trades_disputes.
  rewrite (truthy_str_nonempty _ Hwhy), Hsel, party_check, Hnone.
  cbn [negb].
  assert (Hgoal :
    let r := (let '(d1, did) := insert_dispute now id user why d in
              (update_trade id (with_trade_status "DISPUTED") d1,
               Json (BodyDispute (select_dispute did d1)))) in
    (exists x, snd r = Json (BodyDispute x))
    /\ disputes (fst r) = (disputes d ++ [new_dispute now user id why d])%list
    /\ trades (fst r)
       = Sql.update (fun t0 => (trade_id t0 =? id)%Z)
           (with_trade_status "DISPUTED") (trades d)
    /\ internal_balances (fst r) = internal_balances d).
  { cbn. repeat split. eauto. }
  destruct Hwin as [Hoff | (p & Hp & Hle)].
  - rewrite Hoff. exact Hgoal.
  - destruct ((buyer_id t =? user)%Z
              && (trade_status t =? "PAID_PENDING_RELEASE")%string);
      [|exact Hgoal].
    rewrite Hp. rewrite (proj2 (Z.ltb_ge _ _) Hle). exact Hgoal.
Qed.

(** The buyer, past the window, is refused before anything is written. *)
Lemma buyer_past_window_refused p :
  buyer_id t = user -> trade_status t = "PAID_PENDING_RELEASE" ->
  paid_at t = Some p -> (p + dispute_window < now)%Z ->
  dispute_refused_expired now user id why d.
Proof.
  intros Hb Hst Hp Hlt. unfold dispute_refused_expired, post_trades_disputes.
  rewrite (truthy_str_nonempty _ Hwhy), Hsel, party_check.
  rewrite (proj2 (Z.eqb_eq _ _) Hb), Hst, String.eqb_refl, Hp.
  cbn [negb andb]. now rewrite (proj2 (Z.ltb_lt _ _) Hlt).
Qed.

End OpenDispute.

(** C6. For a trade in PAID_PENDING_RELEASE whose payment was marked at
    [paid_at], a dispute raised by the buyer is opened when it is raised
    at or before [paid_at + 2 hours] (and the trade has no dispute yet),
    and is refused with the window-expired message, leaving the database
    as it was, when it is raised after [paid_at + 2 hours]; so it is
    opened at [paid_at + 1h59m] and refused at [paid_at + 2h01m]. *)
Theorem buyer_dispute_window id why d t p :
  why <> "" ->
  select_trade id d = Some t ->
  trade_status t = "PAID_PENDING_RELEASE" ->
  paid_at t = Some p ->
  let buyer := buyer_id t in
  let hour := (60 * 60 * 1000)%Z in
  let minute := (60 * 1000)%Z in
  (forall now, (now <= p + 2 * hour)%Z ->
     select_dispute_of_trade id d = None ->
     dispute_opened now buyer id why d)
  /\ (forall now, (p + 2 * hour < now)%Z ->
     dispute_refused_expired now buyer id why d)
  /\ (select_dispute_of_trade id d = None ->
     dispute_opened (p + hour + 59 * minute)%Z buyer id why d)
  /\ dispute_refused_expired (p + 2 * hour + minute)%Z buyer id why d.
Proof.
  intros Hwhy Hsel Hst Hp buyer hour minute.
  assert (Hopen : forall now, (now <= p + 2 * hour)%Z ->
     select_dispute_of_trade id d = None ->
     dispute_opened now buyer id why d).
  { intros now Hle Hnone.
    apply (insert_dispute_opens now buyer id why d t Hwhy Hsel
             (or_introl eq_refl) Hnone).
    right. exists p. split; [exact Hp|]. unfold dispute_window.
    subst hour. lia. }
  assert (Hclosed : forall now, (p + 2 * hour < now)%Z ->
     dispute_refused_expired now buyer id why d).
  { intros now Hlt.
    apply (buyer_past_window_refused now buyer id why d t Hwhy Hsel
             (or_introl eq_refl) p eq_refl Hst Hp).
    unfold dispute_window. subst hour. lia. }
  split; [exact Hopen|]. split; [exact Hclosed|]. split.
  - intros Hnone. apply Hopen; [subst hour minute; lia | exact Hnone].
  - apply Hclosed. subst hour minute. lia.
Qed.

(** C10. Apart from the buyer's window, opening a dispute does not look at
    the status of the trade: for a trade without dispute, a request by the
    buyer or by the seller is accepted in every status, COMPLETED and
    CANCELLED included (only a buyer whose trade is PAID_PENDING_RELEASE
    has to be within two hours of [paid_at]), and the accepted request
    sets the status of the trade to DISPUTED whatever it was. *)
Theorem openDispute_any_status now user id why d t :
  why <> "" ->
  select_trade id d = Some t ->
  buyer_id t = user \/ seller_id t = user ->
  select_dispute_of_trade id d = None ->
  (buyer_id t = user -> trade_status t = "PAID_PENDING_RELEASE" ->
   exists p, paid_at t = Some p /\ (now <= p + dispute_window)%Z) ->
  dispute_opened now user id why d
  /\ select_trade id (fst (post_trades_disputes now user id why d))
     = Some (with_trade_status "DISPUTED" t)
  /\ trade_status (with_trade_status "DISPUTED" t) = "DISPUTED".
Proof.
  intros Hwhy Hsel Hparty Hnone Hwin.
  assert (Hopened : dispute_opened now user id why d).
  { apply (insert_dispute_opens now user id why d t Hwhy Hsel Hparty Hnone).
    destruct ((buyer_id t =? user)%Z
              && (trade_status t =? "PAID_PENDING_RELEASE")%string) eqn:E.
    - right. apply andb_true_iff in E. destruct E as [Eb Es].
      apply Z.eqb_eq in Eb. apply String.eqb_eq in Es. now apply Hwin.
    - now left. }
  split; [exact Hopened|]. split; [|reflexivity].
  destruct Hopened as (_ & _ & Htrades & _).
  unfold select_trade in *. rewrite Htrades.
  rewrite SqlFacts.get_update by reflexivity. rewrite Hsel. cbn [option_map].
  now rewrite (SqlFacts.get_holds _ _ _ Hsel).
Qed.

(** ** acceptOffer *)

Lemma or_create_trades now u d :
  trades (fst (balance_row_or_create now u d)) = trades d
  /\ trades_seq (fst (balance_row_or_create now u d)) = trades_seq d.
Proof.
  unfold balance_row_or_create. now destruct (select_balance u d).
Qed.

(** C9, as the code has it.  [POST /trades] does not compare the acceptor
    with the maker of the offer.  A trade it creates is PENDING and takes
    its parties from the side of the offer: the acceptor buys from the
    maker of a SELL offer and sells to the maker of any other offer.  So
    the buyer and the seller of the trade differ exactly when the acceptor
    is not the maker. *)
Theorem acceptOffer_assigns_parties now user offerId amount d d' b :
  post_trades now user offerId amount d = (d', Json b) ->
  exists offer t,
    select_offer offerId d = Some offer
    /\ trades d' = (trades d ++ [t])%list
    /\ trade_status t = "PENDING"
    /\ trade_offer_id t = offer_id offer
    /\ (offer_type offer = "SELL" ->
        buyer_id t = user /\ seller_id t = maker_id offer)
    /\ (offer_type offer <> "SELL" ->
        buyer_id t = maker_id offer /\ seller_id t = user)
    /\ (buyer_id t <> seller_id t <-> user <> maker_id offer).
Proof.
  unfold post_trades. intros H.
  destruct (offerId =? 0)%Z; [destruct amount; discriminate|].
  destruct amount as [| |amountNum]; try discriminate.
  destruct (Js.leb amountNum 0); [discriminate|].
  destruct (select_offer offerId d) as [offer|]; [|discriminate].
  destruct (negb (offer_status offer =? "OPEN")%string); [discriminate|].
  destruct (Js.ltb (remaining offer) amountNum); [discriminate|].
  exists offer.
  assert (Hcreate : forall d1, trades d1 = trades d -> trades_seq d1 = trades_seq d ->
    (let '(d2, id0) :=
       insert_trade now offer
         (if (offer_type offer =? "SELL")%string then user else maker_id offer)
         (if (offer_type offer =? "SELL")%string then maker_id offer else user)
         amountNum d1 in
     (set_offers
        (Sql.update (fun o => (offer_id o =? offer_id offer)%Z)
           (fun o =>
              with_remaining (Numeric.round 8 (remaining o - amountNum)) o))
        d2,
      Json (BodyTrade
              (select_trade id0
                 (set_offers
                    (Sql.update (fun o => (offer_id o =? offer_id offer)%Z)
                       (fun o =>
                          with_remaining
                            (Numeric.round 8 (remaining o - amountNum)) o))
                    d2))))) = (d', Json b) ->
    exists t,
      Some offer = Some offer
      /\ trades d' = (trades d ++ [t])%list
      /\ trade_status t = "PENDING"
      /\ trade_offer_id t = offer_id offer
      /\ (offer_type offer = "SELL" ->
          buyer_id t = user /\ seller_id t = maker_id offer)
      /\ (offer_type offer <> "SELL" ->
          buyer_id t = maker_id offer /\ seller_id t = user)
      /\ (buyer_id t <> seller_id t <-> user <> maker_id offer)).
  { intros d1 Htr Hseq Hd. unfold insert_trade in Hd. cbn [fst snd] in Hd.
    inversion Hd as [[Hd' Hb]]. clear Hd Hb.
    eexists. split; [reflexivity|]. split.
    - cbn [trades set_offers next_trades_seq set_trades]. rewrite Htr.
      reflexivity.
    - cbn [trade_status trade_offer_id buyer_id seller_id].
      split; [reflexivity|]. split; [reflexivity|].
      destruct (offer_type offer =? "SELL")%string eqn:Ety.
      + apply String.eqb_eq in Ety.
        split; [auto|]. split; [congruence|]. tauto.
      + apply String.eqb_neq in Ety.
        split; [congruence|]. split; [auto|]. split; congruence. }
  destruct ((offer_type offer =? "BUY")%string
            && (offer_asset_symbol offer =? "FDA")%string).
  - destruct (or_create_trades now user d) as [Htr Hseq].
    destruct (balance_row_or_create now user d) as [d1 balance].
    cbn [fst] in Htr, Hseq.
    destruct (Js.ltb balance amountNum); [discriminate|].
    destruct (Js.ltb _ amountNum); [discriminate|].
    apply (Hcreate (debit_balance user amountNum now d1)); assumption.
  - apply (Hcreate d); [reflexivity | reflexivity | assumption].
Qed.

(** ** Bulk funding *)

Lemma digit_M : Js.digit "M" = None.
Proof. reflexivity. Qed.

(** [match_digits_M] accepts exactly the texts of the pattern, or a lone
    [M] once digits have been read. *)
Lemma match_digits_M_accepts s : forall acc,
  match_digits_M acc s <> None
  <-> (acc <> None /\ s = "M") \/ digits_then_M s.
Proof.
  induction s as [|c r IH]; intros acc; cbn [match_digits_M].
  - split; [congruence|].
    intros [[_ H] | (ds & Hne & _ & H)]; [discriminate|].
    destruct ds; [congruence | discriminate].
  - destruct (Js.digit c) as [k|] eqn:Ec.
    + rewrite IH. split.
      * intros [[_ ->] | (ds & Hne & Hds & ->)]; right.
        -- exists (String c ""). split; [discriminate|]. split; [|reflexivity].
           intros c' [<-|[]]. congruence.
        -- exists (String c ds). split; [discriminate|]. split; [|reflexivity].
           intros c' [<-|Hin]; [congruence | now apply Hds].
      * intros [[_ H] | (ds & Hne & Hds & H)].
        -- inversion H; subst. rewrite digit_M in Ec. discriminate.
        -- destruct ds as [|c0 ds]; [congruence|].
           cbn in H. inversion H; subst c0 r.
           destruct ds as [|c1 ds].
           ++ left. split; [discriminate | reflexivity].
           ++ right. exists (String c1 ds). split; [discriminate|].
              split; [|reflexivity].
              intros c' Hin. apply Hds. now right.
    + split.
      * destruct (c =? "M")%char eqn:EM; [|cbn; congruence].
        destruct (r =? "")%string eqn:Er; [|cbn; congruence].
        cbn [andb]. intros Hacc. left. split; [exact Hacc|].
        apply Ascii.eqb_eq in EM. apply String.eqb_eq in Er. now subst.
      * intros [[Hacc H] | (ds & Hne & Hds & H)].
        -- inversion H; subst. cbn. exact Hacc.
        -- destruct ds as [|c0 ds]; [congruence|].
           cbn in H. inversion H; subst c0 r.
           exfalso. apply (Hds c); [now left | exact Ec].
Qed.

(** X23. The match of [calculateExpirationDate] is the pattern [^\d+M$]:
    it accepts exactly one or more decimal digits followed by [M]. *)
Lemma match_period_pattern s : match_period s <> None <-> digits_then_M s.
Proof.
  unfold match_period. rewrite match_digits_M_accepts.
  split; [intros [[H _]|H]; [congruence | exact H] | now right].
Qed.

Lemma calculateExpirationDate_rejects now hp :
  hp <> "" -> valid_period hp = false ->
  exists e, calculateExpirationDate now hp = inl e.
Proof.
  intros Hne Hbad. unfold calculateExpirationDate.
  rewrite (truthy_str_nonempty _ Hne). cbn [negb].
  unfold valid_period, period_months in Hbad.
  destruct (match_period _) as [months|]; [|eauto].
  apply N.ltb_ge in Hbad. rewrite (proj2 (N.leb_le _ _) Hbad). eauto.
Qed.

(** C8, as the code has it.  [POST /fda/transfer-to-mc-wallet] answers 400
    and leaves the database as it was, so that no balance changes and no
    holding is written, when the amount is missing, when [parseFloat]
    makes [NaN] of it or a number that is not positive, and when a
    holding period is given whose upper-cased and trimmed text does not
    match [^\d+M$] or gives a month count of zero. *)
Theorem bulk_funding_rejects_before_mutation now userId amount hp d :
  amount = Absent \/ amount = NotNumeric
  \/ (exists q, amount = Numeric q /\ q <= 0)
  \/ (hp <> "" /\ valid_period hp = false) ->
  exists e,
    post_fda_transfer_to_mc_wallet now userId amount hp d = (d, Status 400 e).
Proof.
  intros H. unfold post_fda_transfer_to_mc_wallet.
  destruct (negb (Js.truthy_str userId)); [eauto|].
  destruct H as [-> | [-> | [(q & -> & Hq) | [Hne Hbad]]]]; [eauto | eauto | |].
  - unfold Js.leb. rewrite (proj2 (Qle_bool_iff _ _) Hq). eauto.
  - destruct amount as [| |q]; [eauto | eauto |].
    destruct (Js.leb q 0); [eauto|].
    rewrite (truthy_str_nonempty _ Hne).
    destruct (calculateExpirationDate_rejects now hp Hne Hbad) as [e ->].
    eauto.
Qed.

(** ** resolveDispute against release *)


(** C2, evaluated.  With [p2p_fee_rate = 5], releasing the paid trade of
    100 FDA withholds 5 and credits the buyer 95, whereas resolving the
    dispute on the same trade with [trade_action = release] withholds 1
    and credits the buyer 99: the arbiter's path reads the fee rate stored
    on the trade, which is still [0], and falls back to one percent; it
    also leaves [fee_amount] and [fee_rate] of the trade at [0]. *)
Theorem resolve_release_ignores_fee_setting :
  feeRatePercent Scenario.paid == 5
  /\ feeRatePercent Scenario.disputed == 5
  /\ balance_of Scenario.bob Scenario.released == 95
  /\ balance_of Scenario.bob Scenario.resolved == 99
  /\ option_map fee_amount (select_trade 1%Z Scenario.released)
     = Some (Some (100 * (5 / 100)))
  /\ option_map fee_amount (select_trade 1%Z Scenario.resolved)
     = Some (Some 0)
  /\ option_map trade_status (select_trade 1%Z Scenario.released)
     = Some "COMPLETED"
  /\ option_map trade_status (select_trade 1%Z Scenario.resolved)
     = Some "COMPLETED".
Proof. vm_compute. repeat split. Qed.

(** ** The properties on the scenario *)

Import Scenario.



(** C7.  The code means a SELL offer that is created and then cancelled
    to leave the maker's balance where it was, and misses it for an
    amount with more than 8 decimals.  Alice owns 160 FDA and offers
    0.123456789 FDA: the creation debits 0.123456789, the offer stores
    [remaining = 0.12345679], the cancellation credits what is stored
    and Alice ends with 160.000000001 FDA. *)
Theorem create_then_cancel_gains_the_rounding :
  (exists o, snd (post_offers t0 alice sell_nine_decimals ledger)
             = Json (BodyOffer (Some o))
             /\ remaining o == 0.12345679 /\ offer_status o = "OPEN")
  /\ (exists o, snd (post_offers_cancel (t0 + minute)%Z alice 1%Z
                       offered_nine)
                = Json (BodyOffer (Some o))
                /\ offer_status o = "CANCELLED")
  /\ balance_of alice ledger == 160
  /\ balance_of alice offered_nine == 160 - 0.123456789
  /\ balance_of alice withdrawn_nine == 160.000000001
  /\ ~ balance_of alice withdrawn_nine == balance_of alice ledger
  /\ ~ AsSpecified.create_then_cancel_conserves_balance.
Proof.
  split; [eexists; split; [vm_compute; reflexivity|]; split;
          vm_compute; reflexivity|].
  split; [eexists; split; [vm_compute; reflexivity|];
          vm_compute; reflexivity|].
  split; [vm_compute; reflexivity|].
  split; [vm_compute; reflexivity|].
  split; [vm_compute; reflexivity|].
  split; [intros E; vm_compute in E; discriminate E|].
  intros H.
  assert (E : balance_of alice withdrawn_nine == balance_of alice ledger).
  { apply (H t0 (t0 + minute)%Z alice sell_nine_decimals ledger);
      [reflexivity | reflexivity | discriminate
      | intros E; vm_compute in E; discriminate E
      | intros E; vm_compute in E; discriminate E
      | reflexivity
      | eexists; vm_compute; reflexivity
      | eexists; vm_compute; reflexivity]. }
  vm_compute in E. discriminate E.
Qed.

Lemma markPaid_buyer_restamps_witness :
  exists t1, select_trade 1%Z paid = Some t1
    /\ trade_status t1 = "PAID_PENDING_RELEASE"
    /\ paid_at t1 = Some (t0 + 2 * minute)%Z.
Proof.
  evar (t : TradeRow).
  assert (E : select_trade 1%Z accepted = Some t) by evaluate.
  destruct (markPaid_buyer_restamps (t0 + 2 * minute)%Z bob 1%Z
              (Some "proof.png") accepted t E) as [_ H].
  destruct (H eq_refl) as [(t1 & _ & Hsel & Hst & Hp) _].
  exists t1. auto.
Defined.

Lemma markPaid_accepts_cancelled_trade :
  ~ AsSpecified.markPaid_only_pending_or_paid.
Proof.
  intros H.
  evar (t : TradeRow). evar (b : Body).
  assert (E1 : select_trade 1%Z trade_cancelled = Some t) by evaluate.
  assert (E2 : snd (post_trades_mark_paid (t0 + 3 * minute)%Z bob 1%Z None
                      trade_cancelled) = Json b) by evaluate.
  destruct (H (t0 + 3 * minute)%Z bob 1%Z None trade_cancelled t b E1 E2)
    as [E|E]; discriminate E.
Qed.



Lemma buyer_dispute_window_witness :
  dispute_opened (t0 + 2 * minute + 119 * minute)%Z bob 1%Z "tokens not released" paid
  /\ dispute_refused_expired (t0 + 2 * minute + 121 * minute)%Z bob 1%Z
       "tokens not released" paid.
Proof.
  evar (t : TradeRow).
  assert (E : select_trade 1%Z paid = Some t) by evaluate.
  edestruct (buyer_dispute_window 1%Z "tokens not released" paid t)
    as (_ & _ & Hin & Hout);
    [discriminate | exact E | reflexivity | reflexivity |].
  split; [exact (Hin eq_refl) | exact Hout].
Defined.

Lemma openDispute_any_status_witness :
  dispute_opened (t0 + 9 * minute)%Z alice 1%Z "payment reversed" released
  /\ option_map trade_status (select_trade 1%Z released) = Some "COMPLETED"
  /\ option_map trade_status
       (select_trade 1%Z
          (fst (post_trades_disputes (t0 + 9 * minute)%Z alice 1%Z
                  "payment reversed" released)))
     = Some "DISPUTED".
Proof.
  evar (t : TradeRow).
  assert (E : select_trade 1%Z released = Some t) by evaluate.
  destruct (openDispute_any_status (t0 + 9 * minute)%Z alice 1%Z
              "payment reversed" released t) as (Hopen & Hsel & _);
    [discriminate | exact E | right; reflexivity | evaluate
    | intros E'; discriminate E' |].
  split; [exact Hopen|]. split; [evaluate|]. now rewrite Hsel.
Defined.

Lemma acceptOffer_assigns_parties_witness :
  exists t, trades accepted = [t]
    /\ buyer_id t = bob /\ seller_id t = alice /\ buyer_id t <> seller_id t.
Proof.
  evar (d' : Db). evar (b : Body).
  assert (E : post_trades (t0 + minute)%Z bob 1%Z (Numeric 100) offered
              = (d', Json b)) by evaluate.
  destruct (acceptOffer_assigns_parties (t0 + minute)%Z bob 1%Z (Numeric 100)
              offered d' b E)
    as (offer & t & Hoffer & Htrades & _ & _ & Hsell & _ & Hne).
  assert (Htype : offer_type offer = "SELL").
  { assert (X : option_map offer_type (select_offer 1%Z offered)
                = Some "SELL") by evaluate.
    rewrite Hoffer in X. now inversion X. }
  assert (Hmaker : maker_id offer = alice).
  { assert (X : option_map maker_id (select_offer 1%Z offered)
                = Some alice) by evaluate.
    rewrite Hoffer in X. now inversion X. }
  destruct (Hsell Htype) as [Hb Hs]. rewrite Hmaker in Hs, Hne.
  exists t. split.
  - assert (X : trades accepted = trades d') by evaluate.
    rewrite X. exact Htrades.
  - split; [exact Hb|]. split; [exact Hs|]. apply Hne. discriminate.
Defined.

Lemma acceptOffer_maker_trades_with_self :
  ~ AsSpecified.accepted_trade_parties_differ.
Proof.
  intros H.
  evar (d' : Db). evar (t : TradeRow).
  assert (E : post_trades (t0 + minute)%Z alice 1%Z (Numeric 100) offered
              = (d', Json (BodyTrade (Some t)))) by evaluate.
  apply (H (t0 + minute)%Z alice 1%Z (Numeric 100) offered d' t E).
  reflexivity.
Qed.

Lemma bulk_funding_rejects_before_mutation_witness :
  exists e,
    post_fda_transfer_to_mc_wallet t0 "FDA1002" (Numeric 10) "1Y" ledger
    = (ledger, Status 400 e).
Proof.
  apply (bulk_funding_rejects_before_mutation t0 "FDA1002" (Numeric 10) "1Y"
           ledger).
  right. right. right. split; [discriminate | reflexivity].
Defined.

Lemma bulk_funding_accepts_lower_case_period :
  ~ AsSpecified.rejects_every_period_not_matching.
Proof.
  intros H.
  destruct (H t0 "FDA1002" (Numeric 10) "6m" ledger) as [e He];
    [discriminate | evaluate | vm_compute in He; discriminate He].
Qed.

(** * Further properties of the handlers *)

(** ** Sums over tables *)


(** ** createOffer: the other branches *)

(** X1. An offer to BUY, or to SELL an asset other than FDA, is created
    without reading or writing any balance: the table of balances is as
    before.  When the values fit their columns one OPEN offer is
    appended, whose [remaining] is the amount with 8 decimals; when they
    do not, the insert is refused, the answer is 500 and no offer is
    written. *)
Theorem createOffer_without_ledger_asset now user rq d :
  normalizedType rq = "BUY"
  \/ (normalizedType rq = "SELL" /\ rq_assetSymbol rq <> "FDA") ->
  rq_assetSymbol rq <> "" ->
  rq_fiatCurrency rq <> "" ->
  ~ rq_price rq == 0 ->
  ~ rq_amount rq == 0 ->
  let d' := fst (post_offers now user rq d) in
  let answer := snd (post_offers now user rq d) in
  internal_balances d' = internal_balances d
  /\ (offer_fits rq = true ->
      (exists b, answer = Json b)
      /\ offers d'
         = (offers d ++ [new_offer now user (normalizedType rq) rq d])%list
      /\ remaining (new_offer now user (normalizedType rq) rq d)
         = Numeric.round 8 (rq_amount rq)
      /\ offer_status (new_offer now user (normalizedType rq) rq d) = "OPEN")
  /\ (offer_fits rq = false ->
      answer = Status 500 FailedToCreateOffer /\ offers d' = offers d).
Proof.
  intros Hty Hasset Hfiat Hprice Hamount.
  assert (Htype : rq_type rq <> "").
  { intros E. unfold normalizedType in Hty. rewrite E in Hty.
    destruct Hty as [H|[H _]]; discriminate. }
  assert (Hpath : post_offers now user rq d
                  = insert_and_answer now user (normalizedType rq) rq d).
  { unfold post_offers.
    rewrite (truthy_str_nonempty _ Htype), (truthy_str_nonempty _ Hasset),
      (truthy_str_nonempty _ Hfiat), (truthy_num_nonzero _ Hprice),
      (truthy_num_nonzero _ Hamount).
    cbn [negb orb].
    destruct Hty as [Hbuy | [Hsell Hnot]].
    - rewrite Hbuy. reflexivity.
    - rewrite Hsell. apply String.eqb_neq in Hnot. rewrite Hnot.
      reflexivity. }
  cbv zeta. rewrite Hpath.
  destruct (offer_fits rq) eqn:Hfits.
  - rewrite insert_and_answer_fits by exact Hfits. cbn [fst snd].
    split; [reflexivity|]. split; [|discriminate].
    intros _. repeat split. eauto.
  - rewrite insert_and_answer_refused by exact Hfits. cbn [fst snd].
    split; [reflexivity|]. split; [discriminate|]. intros _. split; reflexivity.
Qed.

(** X2. A request with a required field missing (an empty type, asset or
    currency, a price or an amount of zero) is refused with 400, and so is
    a type that is neither BUY nor SELL once upper-cased and trimmed;
    nothing is written in either case. *)
Theorem createOffer_refuses_malformed now user rq d :
  (rq_type rq = "" \/ rq_assetSymbol rq = "" \/ rq_fiatCurrency rq = ""
   \/ rq_price rq == 0 \/ rq_amount rq == 0 ->
   refused (post_offers now user rq) d 400 MissingOfferFields)
  /\ (rq_type rq <> "" -> rq_assetSymbol rq <> "" ->
      rq_fiatCurrency rq <> "" -> ~ rq_price rq == 0 ->
      ~ rq_amount rq == 0 ->
      normalizedType rq <> "BUY" -> normalizedType rq <> "SELL" ->
      refused (post_offers now user rq) d 400 InvalidOfferType).
Proof.
  unfold refused, post_offers. split.
  - intros H.
    assert (E : negb (Js.truthy_str (rq_type rq))
                || negb (Js.truthy_str (rq_assetSymbol rq))
                || negb (Js.truthy_str (rq_fiatCurrency rq))
                || negb (Js.truthy_num (rq_price rq))
                || negb (Js.truthy_num (rq_amount rq)) = true).
    { unfold Js.truthy_str, Js.truthy_num. rewrite !negb_involutive.
      destruct H as [H|[H|[H|[H|H]]]].
      - rewrite H. reflexivity.
      - rewrite H. cbn. now rewrite orb_true_r.
      - rewrite H. cbn. now rewrite !orb_true_r.
      - rewrite (Qeq_eq_bool _ _ H). now rewrite orb_true_r.
      - rewrite (Qeq_eq_bool _ _ H). now rewrite orb_true_r. }
    now rewrite E.
  - intros Ht Ha Hf Hp Hm Hb Hs.
    rewrite (truthy_str_nonempty _ Ht), (truthy_str_nonempty _ Ha),
      (truthy_str_nonempty _ Hf), (truthy_num_nonzero _ Hp),
      (truthy_num_nonzero _ Hm).
    cbn [negb orb].
    apply String.eqb_neq in Hb, Hs. now rewrite Hb, Hs.
Qed.


(** X4. An accepted SELL offer in FDA never overdraws the maker: the
    balance left is not negative, and it still covers what was locked in
    open SELL offers before, the holding floor and the holdings that have
    not expired. *)
Theorem createOffer_never_overdraws now user rq d :
  normalizedType rq = "SELL" ->
  rq_assetSymbol rq = "FDA" ->
  rq_fiatCurrency rq <> "" ->
  ~ rq_price rq == 0 ->
  ~ rq_amount rq == 0 ->
  (exists b, snd (post_offers now user rq d) = Json b) ->
  let d' := fst (post_offers now user rq d) in
  0 <= balance_of user d'
  /\ locked_in_open_sell_offers user d + holding_floor d
     + holding_locked now user d <= balance_of user d'.
Proof.
  intros Hty Hasset Hfiat Hprice Hamount [b Hok].
  destruct (post_offers_sell_fda_json now user rq d Hty Hasset Hfiat Hprice
              Hamount b Hok) as (E1 & E2 & Hfits & Hpath).
  rewrite Hpath. clear Hok Hpath.
  rewrite insert_and_answer_fits by exact Hfits. cbn [fst].
  destruct (created_offer_db now user rq d) as (_ & Hbal & _).
  rewrite Hbal. apply ltb_ge in E1, E2. unfold usable_balance in E2.
  apply Qnot_lt_le in E1, E2. split; lra.
Qed.


(** ** cancelOffer *)




(** X5. [POST /offers/:id/cancel] answers 404 for an offer that does not
    exist, 403 to anyone but the maker and 400 when the offer is not OPEN,
    and writes nothing in these cases. *)
Theorem cancelOffer_refusals now user id d :
  match select_offer id d with
  | None => refused (post_offers_cancel now user id) d 404 OfferNotFound
  | Some offer =>
      (maker_id offer <> user ->
       refused (post_offers_cancel now user id) d 403 OnlyCreatorCanCancel)
      /\ (maker_id offer = user -> offer_status offer <> "OPEN" ->
          refused (post_offers_cancel now user id) d 400 CannotCancelOffer)
  end.
Proof.
  unfold refused, post_offers_cancel.
  destruct (select_offer id d) as [offer|]; [|reflexivity]. split.
  - intros H. now rewrite (proj2 (Z.eqb_neq _ _) H).
  - intros H Hs. rewrite (proj2 (Z.eqb_eq _ _) H).
    now rewrite (proj2 (String.eqb_neq _ _) Hs).
Qed.


(** ** acceptOffer *)

Lemma leb_le x y : Js.leb x y = true <-> x <= y.
Proof. apply Qle_bool_iff. Qed.

Lemma leb_gt x y : Js.leb x y = false <-> y < x.
Proof.
  unfold Js.leb. rewrite <- not_true_iff_false, Qle_bool_iff.
  split; [apply Qnot_le_lt | apply Qlt_not_le].
Qed.

Section AcceptOffer.
Variables (now : Timestamp) (user offerId : Id) (q : Q) (d : Db)
          (offer : OfferRow).
Hypothesis Hid : offerId <> 0%Z.
Hypothesis Hpos : 0 < q.
Hypothesis Hsel : select_offer offerId d = Some offer.
Hypothesis Hopen : offer_status offer = "OPEN".
Hypothesis Hleft : ~ remaining offer < q.

(** The path of [POST /trades] once the offer is found OPEN with enough
    remaining. *)
Lemma post_trades_open_offer :
  post_trades now user offerId (Numeric q) d =
  if commits_acceptor offer then
    if Js.ltb (balance_of user d) q
    then (fst (balance_row_or_create now user d),
          Status 400 InsufficientFdaBalance)
    else if Js.ltb (usable_balance now user d) q
    then (fst (balance_row_or_create now user d),
          Status 400 MinimumHoldingBalance)
    else accept_into now user offer q
           (debit_balance user q now (fst (balance_row_or_create now user d)))
  else accept_into now user offer q d.
Proof.
  unfold post_trades.
  rewrite (proj2 (Z.eqb_neq _ _) Hid), (proj2 (leb_gt _ _) Hpos), Hsel, Hopen,
    String.eqb_refl, (proj2 (ltb_ge _ _) Hleft).
  cbn [negb]. fold (commits_acceptor offer).
  destruct (commits_acceptor offer); [|reflexivity].
  destruct (balance_of_or_create now user d)
    as (Hbal & _ & _ & Hoff & Hhold & Hset).
  destruct (balance_row_or_create now user d) as [d1 b] eqn:E.
  cbn [fst snd] in *. subst b.
  replace (balance_of user d - locked_in_open_sell_offers user d1
           - holding_floor d1 - holding_locked now user d1)
    with (usable_balance now user d); [reflexivity|].
  unfold usable_balance, locked_in_open_sell_offers, holding_floor,
    holding_locked, select_setting. now rewrite Hoff, Hhold, Hset.
Qed.

(** What [accept_into] writes. *)
Lemma accept_into_db d1 :
  offers d1 = offers d -> trades d1 = trades d -> trades_seq d1 = trades_seq d ->
  let d' := fst (accept_into now user offer q d1) in
  trades d' = Sql.insert (new_trade now user offer q d) (trades d)
  /\ offers d'
     = Sql.update (fun o => (offer_id o =? offerId)%Z)
         (fun o => with_remaining (Numeric.round 8 (remaining o - q)) o)
         (offers d)
  /\ select_offer offerId d'
     = Some (with_remaining (Numeric.round 8 (remaining offer - q)) offer)
  /\ internal_balances d' = internal_balances d1
  /\ exists b, snd (accept_into now user offer q d1) = Json b.
Proof.
  intros Hoff Htr Hseq.
  assert (Hoid : offer_id offer = offerId).
  { apply SqlFacts.get_holds in Hsel. now apply Z.eqb_eq in Hsel. }
  unfold accept_into, insert_trade, new_trade. cbn [fst snd].
  unfold next_trades_seq, set_trades, set_offers.
  cbn [trades offers internal_balances]. rewrite Hoff, Htr, Hseq, Hoid.
  repeat split; [|eauto].
  unfold select_offer. cbn [offers].
  rewrite SqlFacts.get_update by reflexivity.
  fold (select_offer offerId d). rewrite Hsel. cbn [option_map].
  now rewrite <- Hoid, Z.eqb_refl.
Qed.

End AcceptOffer.

(** X7. [POST /trades] refuses, writing nothing: a request without offer
    id or amount (400); an amount that is not a number or not positive
    (400); an offer that does not exist or is not OPEN (404); an amount
    above the offer's [remaining] (400). *)
Theorem acceptOffer_refusals now user offerId amount d :
  (offerId = 0%Z \/ amount = Absent ->
   refused (post_trades now user offerId amount) d 400 OfferIdAndAmountRequired)
  /\ (offerId <> 0%Z ->
      amount = NotNumeric \/ (exists q, amount = Numeric q /\ q <= 0) ->
      refused (post_trades now user offerId amount) d 400 AmountMustBePositive)
  /\ (forall q, offerId <> 0%Z -> amount = Numeric q -> 0 < q ->
      match select_offer offerId d with
      | None =>
          refused (post_trades now user offerId amount) d 404 OfferNotAvailable
      | Some offer =>
          (offer_status offer <> "OPEN" ->
           refused (post_trades now user offerId amount) d 404
             OfferNotAvailable)
          /\ (offer_status offer = "OPEN" -> remaining offer < q ->
              refused (post_trades now user offerId amount) d 400
                NotEnoughRemaining)
      end).
Proof.
  unfold refused, post_trades. split; [|split].
  - intros [-> | ->]; [reflexivity|]. now destruct (offerId =? 0)%Z.
  - intros Hid [-> | (q & -> & Hq)]; rewrite (proj2 (Z.eqb_neq _ _) Hid);
      [reflexivity|]. now rewrite (proj2 (leb_le _ _) Hq).
  - intros q Hid -> Hq.
    rewrite (proj2 (Z.eqb_neq _ _) Hid), (proj2 (leb_gt _ _) Hq).
    destruct (select_offer offerId d) as [offer|]; [|reflexivity]. split.
    + intros Hs. now rewrite (proj2 (String.eqb_neq _ _) Hs).
    + intros Hs Hr. rewrite Hs, String.eqb_refl. cbn [negb].
      now rewrite (proj2 (ltb_lt _ _) Hr).
Qed.

(** X8. Accepting an offer whose acceptor does not sell FDA (a SELL
    offer, or an offer in another asset) touches no balance: it appends
    one PENDING trade at the offer's price, whose amount is the requested
    amount with 8 decimals, and sets the offer's [remaining] to what is
    left of it, with 8 decimals, which is not negative.  Both are exact
    when the amounts have no more than 8 decimals. *)
Theorem acceptOffer_without_commitment now user offerId q d offer :
  offerId <> 0%Z -> 0 < q ->
  select_offer offerId d = Some offer ->
  offer_status offer = "OPEN" ->
  ~ remaining offer < q ->
  commits_acceptor offer = false ->
  let d' := fst (post_trades now user offerId (Numeric q) d) in
  let left := Numeric.round 8 (remaining offer - q) in
  internal_balances d' = internal_balances d
  /\ trades d' = (trades d ++ [new_trade now user offer q d])%list
  /\ trade_status (new_trade now user offer q d) = "PENDING"
  /\ trade_amount (new_trade now user offer q d) = Numeric.round 8 q
  /\ trade_price (new_trade now user offer q d) = offer_price offer
  /\ select_offer offerId d' = Some (with_remaining left offer)
  /\ 0 <= left
  /\ (left == remaining offer - q -> left < remaining offer).
Proof.
  intros Hid Hpos Hsel Hopen Hleft Hno.
  rewrite (post_trades_open_offer now user offerId q d offer Hid Hpos Hsel
             Hopen Hleft), Hno.
  destruct (accept_into_db now user offerId q d offer Hsel d eq_refl eq_refl
              eq_refl) as (Htr & _ & Hoffer & Hbal & _).
  cbv zeta. repeat split; try assumption.
  - apply round_nonneg. apply Qnot_lt_le in Hleft. lra.
  - intros Hexact. rewrite Hexact. lra.
Qed.


(** ** cancel after acceptOffer *)



(** ** release, again *)

(** X11. [POST /trades/:id/release] answers 404 for a trade that does not
    exist, 403 to anyone but the seller and 400 unless the trade is
    PAID_PENDING_RELEASE, and writes nothing in these cases. *)
Theorem release_refusals now user tradeId d :
  match select_trade tradeId d with
  | None => refused (post_trades_release now user tradeId) d 404 TradeNotFound
  | Some t =>
      (seller_id t <> user ->
       refused (post_trades_release now user tradeId) d 403
         OnlySellerCanRelease)
      /\ (seller_id t = user -> trade_status t <> "PAID_PENDING_RELEASE" ->
          refused (post_trades_release now user tradeId) d 400
            NotPaidPendingRelease)
  end.
Proof.
  unfold refused, post_trades_release.
  destruct (select_trade tradeId d) as [t|]; [|reflexivity]. split.
  - intros H. now rewrite (proj2 (Z.eqb_neq _ _) H).
  - intros H Hs. rewrite (proj2 (Z.eqb_eq _ _) H).
    now rewrite (proj2 (String.eqb_neq _ _) Hs).
Qed.


(** ** openDispute, again *)

Lemma get_insert_some {R : Type} (p : R -> bool) (r : R) (t : list R) :
  p r = true -> Sql.get p (Sql.insert r t) <> None.
Proof.
  intros Hp. destruct (Sql.get p t) as [x|] eqn:E.
  - now rewrite (SqlFacts.get_insert_found _ _ _ _ E).
  - rewrite (SqlFacts.get_insert_fresh _ _ _ E), Hp. discriminate.
Qed.

(** X13. [POST /trades/:id/disputes] refuses, writing nothing: a request
    without reason (400); a trade that does not exist (404); a requester
    who is neither buyer nor seller (403); a buyer of a
    PAID_PENDING_RELEASE trade whose [paid_at] is missing (400); and, once
    past the window check, a trade that already has a dispute (400). *)
Theorem openDispute_refusals now user id why d :
  (why = "" -> refused (post_trades_disputes now user id why) d 400
                 ReasonRequired)
  /\ (why <> "" ->
      match select_trade id d with
      | None =>
          refused (post_trades_disputes now user id why) d 404 TradeNotFound
      | Some t =>
          (buyer_id t <> user -> seller_id t <> user ->
           refused (post_trades_disputes now user id why) d 403
             OnlyBuyerOrSellerCanDispute)
          /\ (buyer_id t = user ->
              trade_status t = "PAID_PENDING_RELEASE" ->
              paid_at t = None ->
              refused (post_trades_disputes now user id why) d 400
                ScreenshotNotUploaded)
          /\ (buyer_id t = user \/ seller_id t = user ->
              ~ (buyer_id t = user
                 /\ trade_status t = "PAID_PENDING_RELEASE") ->
              select_dispute_of_trade id d <> None ->
              refused (post_trades_disputes now user id why) d 400
                DisputeAlreadyExists)
      end).
Proof.
  unfold refused, post_trades_disputes. split.
  - intros ->. reflexivity.
  - intros Hwhy. rewrite (truthy_str_nonempty _ Hwhy). cbn [negb].
    destruct (select_trade id d) as [t|]; [|reflexivity].
    split; [|split].
    + intros Hb Hs.
      now rewrite (proj2 (Z.eqb_neq _ _) Hb), (proj2 (Z.eqb_neq _ _) Hs).
    + intros Hb Hst Hp.
      rewrite (proj2 (Z.eqb_eq _ _) Hb), Hst, String.eqb_refl, Hp.
      reflexivity.
    + intros Hparty Hnot Hsome. rewrite (party_check user t Hparty).
      destruct (select_dispute_of_trade id d); [|congruence].
      destruct ((buyer_id t =? user)%Z
                && (trade_status t =? "PAID_PENDING_RELEASE")%string) eqn:E;
        [|reflexivity].
      apply andb_true_iff in E. destruct E as [Eb Es].
      apply Z.eqb_eq in Eb. apply String.eqb_eq in Es. tauto.
Qed.

(** X14. A trade has at most one dispute: once a dispute is opened, every
    further request on the trade, by the buyer or the seller, at any time
    and with any reason, is refused with 400 and writes nothing. *)
Theorem openDispute_at_most_once now later user who id why why' d t :
  select_trade id d = Some t ->
  dispute_opened now user id why d ->
  why' <> "" ->
  buyer_id t = who \/ seller_id t = who ->
  let d' := fst (post_trades_disputes now user id why d) in
  refused (post_trades_disputes later who id why') d' 400 DisputeAlreadyExists.
Proof.
  intros Hsel (_ & Hdis & Htrades & _) Hwhy Hparty. cbv zeta.
  set (d' := fst (post_trades_disputes now user id why d)) in *.
  assert (Hsel' : select_trade id d' = Some (with_trade_status "DISPUTED" t)).
  { unfold select_trade in *. rewrite Htrades.
    rewrite SqlFacts.get_update by reflexivity. rewrite Hsel.
    cbn [option_map]. now rewrite (SqlFacts.get_holds _ _ _ Hsel). }
  assert (Hsome : select_dispute_of_trade id d' <> None).
  { unfold select_dispute_of_trade. rewrite Hdis.
    apply (get_insert_some
             (fun x => (dispute_trade_id x =? id)%Z)
             (new_dispute now user id why d) (disputes d)).
    unfold new_dispute. cbn [dispute_trade_id]. apply Z.eqb_refl. }
  unfold refused, post_trades_disputes.
  rewrite (truthy_str_nonempty _ Hwhy), Hsel'. cbn [negb].
  change (buyer_id (with_trade_status "DISPUTED" t)) with (buyer_id t).
  change (seller_id (with_trade_status "DISPUTED" t)) with (seller_id t).
  rewrite (party_check who t Hparty).
  cbn [trade_status with_trade_status].
  destruct (select_dispute_of_trade id d'); [|congruence].
  change (("DISPUTED" =? "PAID_PENDING_RELEASE")%string) with false.
  now rewrite andb_false_r.
Qed.

(** ** resolveDispute *)

(** The disputes after a resolution that went through. *)
Lemma resolved_disputes now user id status rnote action d dispute :
  valid_resolution status = true ->
  select_dispute id d = Some dispute ->
  dispute_status dispute = "OPEN" ->
  disputes (fst (post_admin_disputes_resolve now user id status rnote action d))
  = Sql.update (fun x => (dispute_id x =? id)%Z)
      (with_resolution status (or_null rnote) user now) (disputes d)
  /\ exists x,
       snd (post_admin_disputes_resolve now user id status rnote action d)
       = Json (BodyResolved x).
Proof.
  intros Hvalid Hsel Hopen. unfold post_admin_disputes_resolve.
  fold (valid_resolution status). rewrite Hvalid, Hsel, Hopen, String.eqb_refl.
  cbn [negb fst snd]. split; [|eauto].
  destruct (action =? "release")%string.
  - destruct (select_trade _ _) as [t|]; [|reflexivity].
    destruct (trade_status t =? "DISPUTED")%string; [|reflexivity].
    unfold ensure_balance_row. destruct (select_balance _ _); reflexivity.
  - destruct (action =? "cancel")%string; [|reflexivity].
    destruct (select_trade _ _) as [t|]; [|reflexivity].
    destruct (trade_status t =? "DISPUTED")%string; [|reflexivity].
    destruct (select_offer _ _) as [o|]; [|reflexivity].
    destruct (_ && _); [|reflexivity].
    unfold ensure_balance_row. destruct (select_balance _ _); reflexivity.
Qed.

(** X15. [POST /admin/disputes/:id/resolve] refuses, writing nothing: a
    status other than RESOLVED, REJECTED or CLOSED (400); a dispute that
    does not exist (404); a dispute that is not OPEN (400). *)
Theorem resolveDispute_refusals now user id status rnote action d :
  (valid_resolution status = false ->
   refused (post_admin_disputes_resolve now user id status rnote action) d
     400 ValidStatusRequired)
  /\ (valid_resolution status = true ->
      match select_dispute id d with
      | None =>
          refused (post_admin_disputes_resolve now user id status rnote action)
            d 404 DisputeNotFound
      | Some x =>
          dispute_status x <> "OPEN" ->
          refused (post_admin_disputes_resolve now user id status rnote action)
            d 400 DisputeAlreadyClosed
      end).
Proof.
  unfold refused, post_admin_disputes_resolve. fold (valid_resolution status).
  split; intros ->; [reflexivity|]. cbn [negb].
  destruct (select_dispute id d) as [x|]; [|reflexivity].
  intros Hs. now rewrite (proj2 (String.eqb_neq _ _) Hs).
Qed.

(** X16. An OPEN dispute is resolved once: the resolution records the
    outcome, the note, the resolver and the time on the dispute, and every
    further resolution, whatever its outcome and trade action, is refused
    with 400 and writes nothing. *)
Theorem resolveDispute_once now later user who id status status' rnote rnote'
  action action' d dispute :
  valid_resolution status = true ->
  valid_resolution status' = true ->
  select_dispute id d = Some dispute ->
  dispute_status dispute = "OPEN" ->
  let d' := fst (post_admin_disputes_resolve now user id status rnote action d) in
  select_dispute id d'
  = Some (with_resolution status (or_null rnote) user now dispute)
  /\ refused (post_admin_disputes_resolve later who id status' rnote' action')
       d' 400 DisputeAlreadyClosed.
Proof.
  intros Hvalid Hvalid' Hsel Hopen. cbv zeta.
  destruct (resolved_disputes now user id status rnote action d dispute Hvalid
              Hsel Hopen) as [Hdis _].
  set (d' := fst (post_admin_disputes_resolve now user id status rnote action d))
    in *.
  assert (Hsel' : select_dispute id d'
                  = Some (with_resolution status (or_null rnote) user now dispute)).
  { unfold select_dispute in *. rewrite Hdis.
    rewrite SqlFacts.get_update by reflexivity. rewrite Hsel.
    cbn [option_map]. now rewrite (SqlFacts.get_holds _ _ _ Hsel). }
  split; [exact Hsel'|].
  unfold refused, post_admin_disputes_resolve.
  fold (valid_resolution status'). rewrite Hvalid', Hsel'.
  cbn [negb dispute_status with_resolution].
  unfold valid_resolution in Hvalid.
  destruct (status =? "RESOLVED")%string eqn:E1.
  { apply String.eqb_eq in E1. now subst. }
  destruct (status =? "REJECTED")%string eqn:E2.
  { apply String.eqb_eq in E2. now subst. }
  destruct (status =? "CLOSED")%string eqn:E3; [|discriminate].
  apply String.eqb_eq in E3. now subst.
Qed.


(** X18. A resolution whose trade action is neither [release] nor [cancel],
    or whose trade is not DISPUTED, closes the dispute and touches nothing
    else: trades, balances, offers and transfers are as before, so the
    trade keeps its status. *)
Theorem resolveDispute_without_trade_action now user id status rnote action d
  dispute :
  valid_resolution status = true ->
  select_dispute id d = Some dispute ->
  dispute_status dispute = "OPEN" ->
  (action <> "release" /\ action <> "cancel")
  \/ (forall t, select_trade (dispute_trade_id dispute) d = Some t ->
      trade_status t <> "DISPUTED") ->
  let d' :=
    fst (post_admin_disputes_resolve now user id status rnote action d) in
  trades d' = trades d /\ internal_balances d' = internal_balances d
  /\ offers d' = offers d /\ internal_transfers d' = internal_transfers d
  /\ exists x, select_dispute id d' = Some x /\ dispute_status x = status.
Proof.
  intros Hvalid Hdis Hopen Hnone.
  destruct (resolved_disputes now user id status rnote action d dispute Hvalid
              Hdis Hopen) as [Hdisputes _].
  cbv zeta.
  assert (Hx : exists x,
    select_dispute id
      (fst (post_admin_disputes_resolve now user id status rnote action d))
    = Some x /\ dispute_status x = status).
  { unfold select_dispute in *. rewrite Hdisputes.
    rewrite SqlFacts.get_update by reflexivity. rewrite Hdis.
    cbn [option_map]. rewrite (SqlFacts.get_holds _ _ _ Hdis).
    eexists. split; reflexivity. }
  revert Hx. unfold post_admin_disputes_resolve.
  fold (valid_resolution status).
  rewrite Hvalid, Hdis, Hopen, String.eqb_refl. cbn [negb fst].
  set (d1 := set_disputes _ d).
  change (select_trade (dispute_trade_id dispute) d1)
    with (select_trade (dispute_trade_id dispute) d).
  intros Hx.
  destruct Hnone as [[Hr Hc] | Hnot].
  - apply String.eqb_neq in Hr, Hc. rewrite Hr, Hc in *. auto.
  - destruct (select_trade (dispute_trade_id dispute) d) as [t|] eqn:Et.
    + specialize (Hnot t eq_refl). apply String.eqb_neq in Hnot.
      rewrite Hnot in *.
      destruct (action =? "release")%string; [auto|].
      destruct (action =? "cancel")%string; auto.
    + destruct (action =? "release")%string; [auto|].
      destruct (action =? "cancel")%string; auto.
Qed.

(** ** Bulk funding, again *)







(** ** Holding periods *)

Lemma upper_ascii_idem c : Js.upper_ascii (Js.upper_ascii c) = Js.upper_ascii c.
Proof. destruct c as [[] [] [] [] [] [] [] []]; vm_compute; reflexivity. Qed.

Lemma toUpperCase_two c c2 r2 :
  Js.toUpperCase (String c (String c2 r2))
  = if Js.is_long_s c c2 then String "S" (Js.toUpperCase r2)
    else String (Js.upper_ascii c) (Js.toUpperCase (String c2 r2)).
Proof. reflexivity. Qed.

(** The two bytes of the long s are not letters: none is raised, and
    none is the upper case of another. *)
Lemma is_long_s_upper c c2 :
  Js.is_long_s (Js.upper_ascii c) (Js.upper_ascii c2) = Js.is_long_s c c2.
Proof.
  unfold Js.is_long_s. f_equal.
  - destruct c as [[] [] [] [] [] [] [] []]; vm_compute; reflexivity.
  - destruct c2 as [[] [] [] [] [] [] [] []]; vm_compute; reflexivity.
Qed.

Lemma is_long_s_S c : Js.is_long_s c "S" = false.
Proof. unfold Js.is_long_s. apply andb_false_r. Qed.

(** A character in front of upper-cased text that does not make a long s
    with it is raised on its own. *)
Lemma toUpperCase_cons c s :
  match s with
  | String c2 _ => Js.is_long_s c c2
  | EmptyString => false
  end = false ->
  Js.toUpperCase (String c s)
  = String (Js.upper_ascii c) (Js.toUpperCase s).
Proof.
  destruct s as [|c2 r2]; [reflexivity|]. intros H.
  now rewrite toUpperCase_two, H.
Qed.

Lemma toUpperCase_idem_upto n : forall s,
  (String.length s <= n)%nat ->
  Js.toUpperCase (Js.toUpperCase s) = Js.toUpperCase s.
Proof.
  induction n as [|n IH]; intros s Hlen.
  - destruct s; [reflexivity | cbn in Hlen; lia].
  - destruct s as [|c [|c2 r2]]; [reflexivity | |].
    + cbn. now rewrite upper_ascii_idem.
    + cbn [String.length] in Hlen. rewrite toUpperCase_two.
      destruct (Js.is_long_s c c2) eqn:E.
      * rewrite toUpperCase_cons.
        -- rewrite IH by lia. reflexivity.
        -- now destruct (Js.toUpperCase r2).
      * rewrite toUpperCase_cons.
        -- rewrite upper_ascii_idem, IH by (cbn; lia). reflexivity.
        -- destruct r2 as [|c3 r3].
           ++ cbn. now rewrite is_long_s_upper.
           ++ rewrite toUpperCase_two. destruct (Js.is_long_s c2 c3).
              ** apply is_long_s_S.
              ** now rewrite is_long_s_upper.
Qed.

Lemma toUpperCase_idem s : Js.toUpperCase (Js.toUpperCase s) = Js.toUpperCase s.
Proof. apply (toUpperCase_idem_upto (String.length s)). lia. Qed.

Lemma toUpperCase_empty s : (Js.toUpperCase s =? "")%string = (s =? "")%string.
Proof.
  destruct s as [|c [|c2 r2]]; [reflexivity | reflexivity |].
  rewrite toUpperCase_two. now destruct (Js.is_long_s c c2).
Qed.

(** X22. The period stored on a holding is the upper-cased text of the
    request, and [calculateExpirationDate] reads it back as it read the
    request: the same refusal, or the same expiry for the same time. *)
Theorem stored_period_reads_back now hp :
  calculateExpirationDate now (Js.toUpperCase hp)
  = calculateExpirationDate now hp.
Proof.
  unfold calculateExpirationDate, Js.truthy_str.
  now rewrite toUpperCase_empty, toUpperCase_idem.
Qed.

(** White space beyond ASCII is trimmed and the long s is raised to S, as
    JavaScript does: these texts are a SELL type and a period of six
    months. *)
Lemma normalizedType_reads_unicode :
  normalizedType
    (mkOfferRequest (Cases.long_s ++ "ell" ++ Cases.no_break_space)
       "FDA" "INR" 10 100 None None None)
  = "SELL".
Proof. vm_compute. reflexivity. Qed.

Lemma period_reads_unicode_space :
  period_months (Cases.line_separator ++ "6m" ++ Cases.no_break_space)
  = Some 6%N.
Proof. vm_compute. reflexivity. Qed.

(** ** Balance figures and deposits *)

Lemma max0_spec x : 0 <= Wallet.max0 x /\ x <= Wallet.max0 x.
Proof.
  unfold Wallet.max0. destruct (Js.ltb 0 x) eqn:E.
  - apply ltb_lt in E. split; lra.
  - apply ltb_ge in E. apply Qnot_lt_le in E. split; lra.
Qed.

(** X24. The figures of [GET /internal/balance]: the usable figure is
    never negative, and the total is the available balance plus what is
    locked in open SELL offers.  The usable figure does not subtract the
    locked amount, which the checks of createOffer and acceptOffer do
    subtract; so, as long as the locked amount is not negative, whatever
    amount those checks let through is within the usable figure shown. *)
Theorem balance_figures_bound_the_checks now user d a :
  0 <= locked_in_open_sell_offers user d ->
  ~ usable_balance now user d < a ->
  let v := Wallet.get_internal_balance now user d in
  0 <= Wallet.view_usable v
  /\ Wallet.view_total v == Wallet.view_available v + Wallet.view_locked v
  /\ usable_balance now user d
     == Wallet.view_available v - Wallet.view_holding v
        - Wallet.view_holdingLocked v - Wallet.view_locked v
  /\ a <= Wallet.view_usable v.
Proof.
  intros Hlocked Ha. cbv zeta. unfold Wallet.get_internal_balance.
  cbn [Wallet.view_usable Wallet.view_total Wallet.view_available
       Wallet.view_locked Wallet.view_holding Wallet.view_holdingLocked].
  destruct (max0_spec (balance_of user d - holding_floor d
                       - holding_locked now user d)) as [H0 Hx].
  apply Qnot_lt_le in Ha. unfold usable_balance in *.
  repeat split; try assumption; try ring. lra.
Qed.



(** ** updateHoldingPeriod *)

(** X26. [PUT /admin/holdings/:id] checks the period before it looks for
    the holding: an empty period and a period that
    [calculateExpirationDate] rejects are answered 400 even when the
    holding does not exist, a valid period for a missing holding is
    answered 404, and nothing is written in these cases. *)
Theorem updateHoldingPeriod_refusals now id hp d :
  (hp = "" ->
   Wallet.put_admin_holdings now id hp d
   = (d, Wallet.Failed 400 Wallet.HoldingPeriodRequired))
  /\ (forall e, hp <> "" -> calculateExpirationDate now hp = inl e ->
      Wallet.put_admin_holdings now id hp d
      = (d, Wallet.Failed 400 (Wallet.InvalidPeriod e)))
  /\ (forall x, hp <> "" -> calculateExpirationDate now hp = inr x ->
      Wallet.select_holding id d = None ->
      Wallet.put_admin_holdings now id hp d
      = (d, Wallet.Failed 404 Wallet.HoldingNotFound)).
Proof.
  unfold Wallet.put_admin_holdings. split; [|split].
  - intros ->. reflexivity.
  - intros e Hne ->. now rewrite (truthy_str_nonempty _ Hne).
  - intros x Hne -> ->. now rewrite (truthy_str_nonempty _ Hne).
Qed.

(** X27. Updating the period of a holding restarts the lock from the time
    of the update: the new expiry is the one [calculateExpirationDate]
    gives at that time, whatever the creation time and the former expiry
    of the holding; the stored period is the upper-cased text; the amount
    and the owner of the holding and every balance are left as they
    were.  When the upper-cased text does not fit the 20 characters of
    its column, or the expiry is after the year 9999, the update is
    refused: the answer is 500 and nothing is written. *)
Theorem updateHoldingPeriod_restarts_from_now now id hp d h e :
  hp <> "" ->
  calculateExpirationDate now hp = inr (Some e) ->
  Wallet.select_holding id d = Some h ->
  let d' := fst (Wallet.put_admin_holdings now id hp d) in
  let answer := snd (Wallet.put_admin_holdings now id hp d) in
  let updated :=
    Wallet.with_period (Text.stored 20 (Js.toUpperCase hp)) e h in
  (Date.iso_accepted e = true -> Text.fits 20 (Js.toUpperCase hp) = true ->
   Wallet.select_holding id d' = Some updated
   /\ expires_at updated = e
   /\ holding_amount updated = holding_amount h
   /\ holding_user_id updated = holding_user_id h
   /\ internal_balances d' = internal_balances d)
  /\ (Date.iso_accepted e = false \/ Text.fits 20 (Js.toUpperCase hp) = false ->
      answer = Wallet.Failed 500 Wallet.UpdateFailed /\ d' = d).
Proof.
  intros Hne Hcalc Hsel. cbv zeta. unfold Wallet.put_admin_holdings.
  rewrite (truthy_str_nonempty _ Hne), Hcalc, Hsel. cbn [negb].
  unfold Wallet.update_period, Text.fits, Text.stored.
  destruct (Date.iso_accepted e);
    destruct (Text.varchar 20 (Js.toUpperCase hp)) as [stored|];
    (split; [intros Ha Hb; try discriminate
            | intros [H|H]; try discriminate; split; reflexivity]).
  set (d1 := set_fda_holdings _ d).
  assert (Hsel1 : Wallet.select_holding id d1
                  = Some (Wallet.with_period stored e h)).
  { unfold Wallet.select_holding, d1 in *. cbn [fda_holdings set_fda_holdings].
    rewrite SqlFacts.get_update by reflexivity. rewrite Hsel.
    cbn [option_map]. now rewrite (SqlFacts.get_holds _ _ _ Hsel). }
  rewrite Hsel1.
  destruct (Sql.get _ (users d1)); cbn [fst]; repeat split; exact Hsel1.
Qed.

(** ** The further properties on the ledger *)

Import Cases.

Lemma createOffer_without_ledger_asset_witness :
  internal_balances bid = internal_balances ledger
  /\ (exists b, snd (post_offers t0 bob buy40 ledger) = Json b)
  /\ (exists o, offers bid = (offers ledger ++ [o])%list /\ remaining o == 40)
  /\ snd (post_offers t0 bob buy_overlong ledger)
     = Status 500 FailedToCreateOffer
  /\ offers (fst (post_offers t0 bob buy_overlong ledger)) = offers ledger.
Proof.
  destruct (createOffer_without_ledger_asset t0 bob buy40 ledger)
    as (Hbal & Hfits & _);
    [left; evaluate | discriminate | discriminate
    | intros E; refute E | intros E; refute E |].
  destruct (createOffer_without_ledger_asset t0 bob buy_overlong ledger)
    as (_ & _ & Hrefused);
    [left; evaluate | discriminate | discriminate
    | intros E; refute E | intros E; refute E |].
  destruct Hfits as (Hok & Hoffers & Hrem & _); [evaluate|].
  destruct Hrefused as (H500 & Hnone); [evaluate|].
  split; [exact Hbal|]. split; [exact Hok|]. split.
  - eexists. split; [exact Hoffers|]. rewrite Hrem. evaluate.
  - split; [exact H500 | exact Hnone].
Defined.


Lemma createOffer_never_overdraws_witness : 0 <= balance_of alice offered.
Proof.
  destruct (createOffer_never_overdraws t0 alice sell100 ledger) as (H & _);
    [evaluate | reflexivity | discriminate
    | intros E; refute E | intros E; refute E
    | eexists; evaluate |].
  exact H.
Defined.


Lemma acceptOffer_without_commitment_witness :
  internal_balances accepted = internal_balances offered
  /\ exists o t,
       select_offer 1%Z sliver_accepted = Some o /\ remaining o == 100
       /\ trades sliver_accepted = (trades offered ++ [t])%list
       /\ trade_amount t == 0.00000001.
Proof.
  evar (offer : OfferRow).
  assert (E : select_offer 1%Z offered = Some offer) by evaluate.
  destruct (acceptOffer_without_commitment (t0 + minute)%Z bob 1%Z 100
              offered offer) as (H & _);
    [discriminate | reflexivity | exact E | reflexivity
    | intros E'; refute E' | reflexivity |].
  destruct (acceptOffer_without_commitment (t0 + minute)%Z bob 1%Z sliver
              offered offer)
    as (_ & Htrades & _ & Hamount & _ & Hoffer & _);
    [discriminate | reflexivity | exact E | reflexivity
    | intros E'; refute E' | reflexivity |].
  split; [exact H|].
  eexists. eexists. split; [exact Hoffer|]. split; [evaluate|].
  split; [exact Htrades|]. rewrite Hamount. evaluate.
Defined.




Lemma openDispute_at_most_once_witness :
  refused (post_trades_disputes (t0 + 5 * minute)%Z alice 1%Z "again") disputed
    400 DisputeAlreadyExists.
Proof.
  evar (t : TradeRow).
  assert (E : select_trade 1%Z paid = Some t) by evaluate.
  apply (openDispute_at_most_once (t0 + 3 * minute)%Z (t0 + 5 * minute)%Z bob
           alice 1%Z "tokens not released" "again" paid t E);
    [| discriminate | right; reflexivity].
  split; [eexists; evaluate|]. split; [evaluate|]. split; evaluate.
Defined.

Lemma resolveDispute_once_witness :
  refused (post_admin_disputes_resolve (t0 + 5 * minute)%Z arbiter 1%Z "CLOSED"
             None "cancel") resolved 400 DisputeAlreadyClosed.
Proof.
  evar (dispute : DisputeRow).
  assert (E : select_dispute 1%Z disputed = Some dispute) by evaluate.
  destruct (resolveDispute_once (t0 + 4 * minute)%Z (t0 + 5 * minute)%Z
              arbiter arbiter 1%Z "RESOLVED" "CLOSED" None None "release"
              "cancel" disputed dispute) as (_ & H);
    [reflexivity | reflexivity | exact E | reflexivity |].
  exact H.
Defined.


Lemma resolveDispute_without_trade_action_witness :
  trades (fst (post_admin_disputes_resolve (t0 + 4 * minute)%Z arbiter 1%Z
                 "CLOSED" None "none" disputed))
  = trades disputed.
Proof.
  evar (dispute : DisputeRow).
  assert (E : select_dispute 1%Z disputed = Some dispute) by evaluate.
  destruct (resolveDispute_without_trade_action (t0 + 4 * minute)%Z arbiter
              1%Z "CLOSED" None "none" disputed dispute) as (H & _);
    [reflexivity | exact E | reflexivity
    | left; split; discriminate |].
  exact H.
Defined.




Lemma balance_figures_bound_the_checks_witness :
  100 <= Wallet.view_usable (Wallet.get_internal_balance t0 alice ledger).
Proof.
  destruct (balance_figures_bound_the_checks t0 alice ledger 100)
    as (_ & _ & _ & H);
    [intros E; vm_compute in E; discriminate E
    | intros E; vm_compute in E; discriminate E |].
  exact H.
Defined.

Lemma updateHoldingPeriod_restarts_from_now_witness :
  Wallet.select_holding 1%Z
    (fst (Wallet.put_admin_holdings six_months_on 1%Z "1m" funded))
  = Some (Wallet.with_period "1M" 1718403200000%Z
            (mkHolding 1%Z bob 10 "6M" six_months_on t0))
  /\ Wallet.put_admin_holdings six_months_on 1%Z overlong_period funded
     = (funded, Wallet.Failed 500 Wallet.UpdateFailed).
Proof.
  pose (h := mkHolding 1%Z bob 10 "6M" six_months_on t0).
  destruct (updateHoldingPeriod_restarts_from_now six_months_on 1%Z "1m"
              funded h 1718403200000%Z) as (H & _);
    [discriminate | evaluate | evaluate |].
  destruct (updateHoldingPeriod_restarts_from_now six_months_on 1%Z
              overlong_period funded h 1731622400000%Z) as (_ & H');
    [discriminate | evaluate | evaluate |].
  destruct H as (Hsel & _); [evaluate | evaluate |].
  destruct H' as (H500 & Hsame); [right; evaluate|].
  split; [exact Hsel|].
  rewrite (surjective_pairing (Wallet.put_admin_holdings _ _ _ _)).
  now rewrite H500, Hsame.
Defined.


